(** * Points-and-state reconciliation core of the health-engagement app

    A shallow embedding of [src/supabaseService.ts] (the OTP cache, the
    [apiService] gateway calls and the goal-webhook parser) and of the event
    handlers of the diagnosis, progress and sign-in pages, followed by the
    properties the specification states about them.

    Conventions.
    - A JavaScript string is a [string]: a sequence of code units below 256.
    - A JavaScript number that the code only adds and compares is a [Z].
    - A value of type [string | undefined] is an [option string]; [if (x)]
      on it is [Js.truthy].
    - Every [await] on the backend is a gateway call; whether it fails is the
      environment's choice, scripted in the [w_faults] of the world.
    - A handler reads the state its closure captured when it started.
      [step] and [run] take the handlers one at a time, each run to its
      end; [InFlight] cuts the point-earning handlers of the diagnosis
      page at their first [await], for the runs in which two handlers are
      in flight at once. *)

From Stdlib Require Import ZArith Lia Ascii.
From stdpp Require Import base option list strings gmap pretty.

#[local] Open Scope Z_scope.

(* ===================================================================== *)
(** * JavaScript helpers                                                  *)
(* ===================================================================== *)

Module Js.

(** [if (x)] for [x : string | undefined]: the empty string and [undefined]
    are falsy. *)
Definition truthy (x : option string) : bool :=
  match x with
  | Some (String _ _) => true
  | _ => false
  end.

(** [a || b] on [string | undefined]. *)
Definition or_else (a : option string) (b : string) : string :=
  match a with
  | Some (String c s) => String c s
  | _ => b
  end.

(** White space and line terminators, as [String.prototype.trim] and
    [parseFloat] strip them: TAB, LF, VT, FF, CR, SP and NBSP. *)
Definition isWhiteSpace (c : ascii) : bool :=
  bool_decide (nat_of_ascii c ∈ [9; 10; 11; 12; 13; 32; 160]%nat).

Fixpoint trimStart (s : string) : string :=
  match s with
  | String c s' => if isWhiteSpace c then trimStart s' else s
  | EmptyString => EmptyString
  end.

Definition trimEnd (s : string) : string :=
  String.rev (trimStart (String.rev s)).

Definition trim (s : string) : string := trimEnd (trimStart s).

(** [s.split(sep)] for a one-character separator: never empty, one more
    part than there are separators. *)
Fixpoint split (sep : ascii) (s : string) : list string :=
  match s with
  | EmptyString => [EmptyString]
  | String c s' =>
      if bool_decide (c = sep) then EmptyString :: split sep s'
      else match split sep s' with
           | p :: ps => String c p :: ps
           | [] => [String c EmptyString]
           end
  end.

(** Number of occurrences of a character. *)
Fixpoint count (sep : ascii) (s : string) : nat :=
  match s with
  | EmptyString => 0%nat
  | String c s' => ((if bool_decide (c = sep) then 1 else 0) + count sep s')%nat
  end.

(** [arr.includes(x)] on an array of strings. *)
Definition includes (arr : list string) (x : string) : bool :=
  bool_decide (x ∈ arr).

Definition startsWith (p s : string) : bool := String.prefix p s.

End Js.

(* ===================================================================== *)
(** * Domain types ([../types])                                            *)
(* ===================================================================== *)

Inductive Category := Diet | Exercise | MentalHealth | General.
Inductive Difficulty := Easy | Medium | Hard.

#[global] Instance Category_eq_dec : EqDecision Category.
Proof. solve_decision. Defined.
#[global] Instance Difficulty_eq_dec : EqDecision Difficulty.
Proof. solve_decision. Defined.

Definition category_name (c : Category) : string :=
  match c with
  | Diet => "Diet"
  | Exercise => "Exercise"
  | MentalHealth => "Mental Health"
  | General => "General"
  end.

Definition difficulty_name (d : Difficulty) : string :=
  match d with
  | Easy => "Easy"
  | Medium => "Medium"
  | Hard => "Hard"
  end.

(** The casts [as Recommendation['category']] and
    [as Recommendation['difficulty']]. *)
Definition category_of_string (s : string) : option Category :=
  if bool_decide (s = "Diet") then Some Diet
  else if bool_decide (s = "Exercise") then Some Exercise
  else if bool_decide (s = "Mental Health") then Some MentalHealth
  else if bool_decide (s = "General") then Some General
  else None.

Definition difficulty_of_string (s : string) : option Difficulty :=
  if bool_decide (s = "Easy") then Some Easy
  else if bool_decide (s = "Medium") then Some Medium
  else if bool_decide (s = "Hard") then Some Hard
  else None.

(** [Omit<Recommendation, 'id' | 'userId' | 'isCompleted'>]. *)
Record NewGoal := {
  ng_goal : string;
  ng_category : Category;
  ng_difficulty : Difficulty;
}.

(* ===================================================================== *)
(** * The goal webhook parser ([fetchHealthGoalsFromN8n])                  *)
(* ===================================================================== *)

(** What [fetch] resolves to: [response.ok], [response.status] and the body
    read by [response.text()]. *)
Record HttpResponse := {
  resp_ok : bool;
  resp_status : Z;
  resp_text : string;
}.

Module Goals.

Definition validCategories : list string :=
  ["Diet"; "Exercise"; "Mental Health"; "General"].
Definition validDifficulties : list string := ["Easy"; "Medium"; "Hard"].

(** The callback of [lines.map]: [None] is the [null] of a skipped line. *)
Definition parseLine (line : string) : option NewGoal :=
  match Js.split ";" line with
  | [goal; category; difficulty] =>
      if negb (Js.includes validCategories category)
         || negb (Js.includes validDifficulties difficulty)
      then None
      else
        match category_of_string (Js.trim category),
              difficulty_of_string (Js.trim difficulty) with
        | Some c, Some d =>
            Some {| ng_goal := Js.trim goal; ng_category := c; ng_difficulty := d |}
        | _, _ => None
        end
  | _ => None
  end.

(** [text.trim().split('\n').filter(line => line.length > 0)]. *)
Definition linesOf (text : string) : list string :=
  filter (λ line, line ≠ "") (Js.split "010" (Js.trim text)).

(** The body of the [try] block: [inl] is a thrown [Error]. *)
Definition tryParse (resp : option HttpResponse) : string + list NewGoal :=
  match resp with
  | None => inl "fetch failed"
  | Some r =>
      if negb (resp_ok r)
      then inl ("n8n workflow failed with status: " +:+ pretty (resp_status r))
      else
        let lines := linesOf (resp_text r) in
        let goals := omap parseLine lines in
        if bool_decide (length goals = 0%nat) && bool_decide (0 < length lines)%nat
        then inl "Failed to parse any goals from n8n response."
        else inr goals
  end.

(** [fetchHealthGoalsFromN8n]: [resp] is what [fetch] resolved to, [None]
    when it rejected. The [catch] turns every throw into the empty array. *)
Definition fetchHealthGoalsFromN8n (resp : option HttpResponse) : list NewGoal :=
  match tryParse resp with
  | inl _ => []
  | inr goals => goals
  end.

End Goals.

(* ===================================================================== *)
(** * JavaScript objects and numbers                                      *)
(* ===================================================================== *)

(** An object with string keys: its own properties in insertion order, no
    key twice. *)
Definition JsObject (V : Type) : Type := list (string * V).

Module Obj.

Fixpoint get {V} (k : string) (o : JsObject V) : option V :=
  match o with
  | [] => None
  | (k', v) :: o' => if bool_decide (k' = k) then Some v else get k o'
  end.

(** [o[k] = v]: an existing key keeps its place, a new one goes last. *)
Fixpoint set {V} (k : string) (v : V) (o : JsObject V) : JsObject V :=
  match o with
  | [] => [(k, v)]
  | (k', v') :: o' =>
      if bool_decide (k' = k) then (k', v) :: o' else (k', v') :: set k v o'
  end.

Definition keys {V} (o : JsObject V) : list string := o.*1.

(** [{ ...a, ...b }]. *)
Definition spread {V} (a b : JsObject V) : JsObject V :=
  foldl (λ acc kv, set kv.1 kv.2 acc) a b.

Definition isUpper (c : ascii) : bool :=
  let n := nat_of_ascii c in (65 <=? n)%nat && (n <=? 90)%nat.

Definition toLowerCase (c : ascii) : ascii :=
  if isUpper c then ascii_of_nat (nat_of_ascii c + 32) else c.

(** [key.replace(/[A-Z]/g, letter => `_${letter.toLowerCase()}`)]. *)
Fixpoint snakeKey (key : string) : string :=
  match key with
  | EmptyString => EmptyString
  | String c key' =>
      if isUpper c then String "_" (String (toLowerCase c) (snakeKey key'))
      else String c (snakeKey key')
  end.

(** [toSnakeCase] on an object: the [for ... in] loop. *)
Definition toSnakeCase {V} (obj : JsObject V) : JsObject V :=
  foldl (λ newObj kv, set (snakeKey kv.1) kv.2 newObj) [] obj.

End Obj.

Module Num.

(** The number [parseFloat] reads, as the exact decimal it denotes:
    [Dec neg m e] is (-1)^neg * m * 10^e. Rounding to a double is left out;
    no code here depends on it. *)
Inductive t := NaN | Infinity (neg : bool) | Dec (neg : bool) (mant : N) (exp10 : Z).

Definition isNaN (n : t) : bool :=
  match n with NaN => true | _ => false end.

Definition digit (c : ascii) : option N :=
  let code := N_of_ascii c in
  if (48 <=? code)%N && (code <=? 57)%N then Some (code - 48)%N else None.

(** Reads the longest run of decimal digits: the value accumulated on
    [acc], how many digits were read, and what follows them. *)
Fixpoint readDigits (s : string) (acc : N) (n : nat) : N * nat * string :=
  match s with
  | EmptyString => (acc, n, s)
  | String c s' =>
      match digit c with
      | Some d => readDigits s' (10 * acc + d)%N (S n)
      | None => (acc, n, s)
      end
  end.

Definition readSign (s : string) : bool * string :=
  match s with
  | String "+" s' => (false, s')
  | String "-" s' => (true, s')
  | _ => (false, s)
  end%char.

(** [ExponentPart], taken only when complete; otherwise exponent 0. *)
Definition readExponent (s : string) : Z :=
  match s with
  | String c s' =>
      if bool_decide (c = "e"%char) || bool_decide (c = "E"%char) then
        let '(eneg, s'') := readSign s' in
        let '(ev, ne, _) := readDigits s'' 0%N 0%nat in
        if bool_decide (ne = 0%nat) then 0
        else if eneg then - Z.of_N ev else Z.of_N ev
      else 0
  | EmptyString => 0
  end.

(** [parseFloat(s)]: skips leading white space, then reads the longest
    prefix that is a [StrDecimalLiteral]; [NaN] when there is none. *)
Definition parseFloat (s : string) : t :=
  let '(neg, s1) := readSign (Js.trimStart s) in
  if Js.startsWith "Infinity" s1 then Infinity neg
  else
    let '(ip, ni, s2) := readDigits s1 0%N 0%nat in
    let '(m, nf, s3) :=
      match s2 with
      | String "."%char s2' => readDigits s2' ip 0%nat
      | _ => (ip, 0%nat, s2)
      end in
    if bool_decide ((ni + nf)%nat = 0%nat) then NaN
    else Dec neg m (readExponent s3 - Z.of_nat nf).

End Num.

(** A column value of a row sent to the gateway. *)
Inductive JsVal := VStr (s : string) | VNum (n : Num.t).

Inductive GameType := Clicker | Memory.

Record User := {
  u_id : string;
  u_email : string;
  u_firstName : string;
  u_lastName : string;
  u_points : Z;
}.

Record HealthData := {
  h_age : Z;
  h_height : Z;
  h_weight : Z;
  h_gender : string;
  h_fitnessLevel : string;
  h_existingConditions : string;
  h_allergies : string;
  h_medications : string;
  h_preferredLanguage : string;
}.

Record Recommendation := {
  rec_id : Z;
  rec_userId : string;
  rec_goal : string;
  rec_category : Category;
  rec_difficulty : Difficulty;
  isCompleted : bool;
}.

(* ===================================================================== *)
(** * The backend store                                                   *)
(* ===================================================================== *)

(** What a failed gateway call resolves to in its [error] field. *)
Record PostgrestError := { err_message : string }.

(** Rows of [users] (keyed by [id]), [recommendations], [daily_metrics]
    and [game_sessions]. [created_at] and a recommendation's [id] are
    filled in by the store on insert. *)
Record UserRow := {
  ur_first_name : string;
  ur_last_name : string;
  ur_email : string;
}.

Record RecRow := {
  rr_id : Z;
  rr_user_id : string;
  rr_goal : string;
  rr_category : Category;
  rr_difficulty : Difficulty;
}.

Record MetricRow := {
  dm_created_at : Z;
  dm_cols : JsObject JsVal;
}.

Record GameRow := {
  gs_user_id : string;
  gs_game_type : GameType;
  gs_score : Z;
}.

(** The seven collections. [user_points] is keyed by [user_id] and
    [recommendation_status] by [(user_id, recommendation_id)]: the conflict
    targets of the two upserts are unique keys. [t_rec_seq] is the identity
    sequence that numbers new recommendations. *)
Record Db := mkDb {
  t_users : gmap string UserRow;
  t_health : gmap string HealthData;
  t_points : gmap string (option Z);
  t_metrics : list MetricRow;
  t_games : list GameRow;
  t_recs : list RecRow;
  t_status : gmap string (gmap Z bool);
  t_rec_seq : Z;
}.

Definition set_t_users (f : gmap string UserRow → gmap string UserRow) (d : Db) : Db :=
  mkDb (f (t_users d)) (t_health d) (t_points d) (t_metrics d) (t_games d)
       (t_recs d) (t_status d) (t_rec_seq d).
Definition set_t_health (f : gmap string HealthData → gmap string HealthData) (d : Db) : Db :=
  mkDb (t_users d) (f (t_health d)) (t_points d) (t_metrics d) (t_games d)
       (t_recs d) (t_status d) (t_rec_seq d).
Definition set_t_points (f : gmap string (option Z) → gmap string (option Z)) (d : Db) : Db :=
  mkDb (t_users d) (t_health d) (f (t_points d)) (t_metrics d) (t_games d)
       (t_recs d) (t_status d) (t_rec_seq d).
Definition set_t_metrics (f : list MetricRow → list MetricRow) (d : Db) : Db :=
  mkDb (t_users d) (t_health d) (t_points d) (f (t_metrics d)) (t_games d)
       (t_recs d) (t_status d) (t_rec_seq d).
Definition set_t_games (f : list GameRow → list GameRow) (d : Db) : Db :=
  mkDb (t_users d) (t_health d) (t_points d) (t_metrics d) (f (t_games d))
       (t_recs d) (t_status d) (t_rec_seq d).
Definition set_t_recs (f : list RecRow → list RecRow) (d : Db) : Db :=
  mkDb (t_users d) (t_health d) (t_points d) (t_metrics d) (t_games d)
       (f (t_recs d)) (t_status d) (t_rec_seq d).
Definition set_t_status (f : gmap string (gmap Z bool) → gmap string (gmap Z bool)) (d : Db) : Db :=
  mkDb (t_users d) (t_health d) (t_points d) (t_metrics d) (t_games d)
       (t_recs d) (f (t_status d)) (t_rec_seq d).
Definition set_t_rec_seq (f : Z → Z) (d : Db) : Db :=
  mkDb (t_users d) (t_health d) (t_points d) (t_metrics d) (t_games d)
       (t_recs d) (t_status d) (f (t_rec_seq d)).

(* ===================================================================== *)
(** * Client state                                                        *)
(* ===================================================================== *)

(** State of [DiagnosisPage], [ProgressPage] and [AuthPage] (the hooks that
    the handlers read or write). *)
Record DiagnosisState := mkDiag {
  d_metrics : JsObject string;
  d_submittedToday : bool;
  d_loading : bool;
  d_message : string;
}.

Record ProgressState := mkProg {
  p_recommendations : list Recommendation;
  p_loading : bool;
  p_generating : bool;
  p_saving : bool;
  p_message : string;
  p_canGenerate : bool;
}.

Inductive AuthView := ViewLogin | ViewOtp | ViewSignup | ViewHealthDetails.

Record AuthState := mkAuth {
  a_view : AuthView;
  a_email : string;
  a_otp : string;
  a_error : string;
  a_loading : bool;
  a_message : string;
}.

(** A record of what the handlers do to points, in the order they do it,
    kept for the properties below; the source keeps no such record. *)
Inductive Event :=
  | EvUpsertPoints (userId : string) (points : Z) (ok : bool)
  | EvSessionPoints (points : Z)
  | EvAlert (text : string).

(** Everything a handler can read or change. [w_faults] scripts the
    outcome of the gateway calls to come, one entry per call ([None]: the
    call goes through; past the end of the script every call goes through).
    [w_now] is the clock in milliseconds since the epoch, shared by the
    client and the store, and [w_tz] the client's offset from UTC.
    [w_authSession] is the backend ([supabase.auth]) session, [w_user] and
    [w_health] the profile held by the [useAuth] context. *)
Record World := mkWorld {
  w_db : Db;
  w_faults : list (option PostgrestError);
  w_now : Z;
  w_tz : Z;
  w_otpCache : gmap string string;
  w_authSession : option string;
  w_lastGoalGen : gmap string Z;
  w_user : option User;
  w_health : option HealthData;
  w_diag : DiagnosisState;
  w_prog : ProgressState;
  w_auth : AuthState;
  w_trace : list Event;
}.

Definition set_db (f : Db → Db) (w : World) : World :=
  mkWorld (f (w_db w)) (w_faults w) (w_now w) (w_tz w) (w_otpCache w)
    (w_authSession w) (w_lastGoalGen w) (w_user w) (w_health w) (w_diag w)
    (w_prog w) (w_auth w) (w_trace w).
Definition set_faults (fs : list (option PostgrestError)) (w : World) : World :=
  mkWorld (w_db w) fs (w_now w) (w_tz w) (w_otpCache w)
    (w_authSession w) (w_lastGoalGen w) (w_user w) (w_health w) (w_diag w)
    (w_prog w) (w_auth w) (w_trace w).
Definition set_now (t : Z) (w : World) : World :=
  mkWorld (w_db w) (w_faults w) t (w_tz w) (w_otpCache w)
    (w_authSession w) (w_lastGoalGen w) (w_user w) (w_health w) (w_diag w)
    (w_prog w) (w_auth w) (w_trace w).
Definition set_otpCache (f : gmap string string → gmap string string) (w : World) : World :=
  mkWorld (w_db w) (w_faults w) (w_now w) (w_tz w) (f (w_otpCache w))
    (w_authSession w) (w_lastGoalGen w) (w_user w) (w_health w) (w_diag w)
    (w_prog w) (w_auth w) (w_trace w).
Definition set_authSession (s : option string) (w : World) : World :=
  mkWorld (w_db w) (w_faults w) (w_now w) (w_tz w) (w_otpCache w)
    s (w_lastGoalGen w) (w_user w) (w_health w) (w_diag w)
    (w_prog w) (w_auth w) (w_trace w).
Definition set_lastGoalGen (f : gmap string Z → gmap string Z) (w : World) : World :=
  mkWorld (w_db w) (w_faults w) (w_now w) (w_tz w) (w_otpCache w)
    (w_authSession w) (f (w_lastGoalGen w)) (w_user w) (w_health w) (w_diag w)
    (w_prog w) (w_auth w) (w_trace w).
Definition set_user (u : option User) (w : World) : World :=
  mkWorld (w_db w) (w_faults w) (w_now w) (w_tz w) (w_otpCache w)
    (w_authSession w) (w_lastGoalGen w) u (w_health w) (w_diag w)
    (w_prog w) (w_auth w) (w_trace w).
Definition set_health (h : option HealthData) (w : World) : World :=
  mkWorld (w_db w) (w_faults w) (w_now w) (w_tz w) (w_otpCache w)
    (w_authSession w) (w_lastGoalGen w) (w_user w) h (w_diag w)
    (w_prog w) (w_auth w) (w_trace w).
Definition set_diag (f : DiagnosisState → DiagnosisState) (w : World) : World :=
  mkWorld (w_db w) (w_faults w) (w_now w) (w_tz w) (w_otpCache w)
    (w_authSession w) (w_lastGoalGen w) (w_user w) (w_health w) (f (w_diag w))
    (w_prog w) (w_auth w) (w_trace w).
Definition set_prog (f : ProgressState → ProgressState) (w : World) : World :=
  mkWorld (w_db w) (w_faults w) (w_now w) (w_tz w) (w_otpCache w)
    (w_authSession w) (w_lastGoalGen w) (w_user w) (w_health w) (w_diag w)
    (f (w_prog w)) (w_auth w) (w_trace w).
Definition set_auth (f : AuthState → AuthState) (w : World) : World :=
  mkWorld (w_db w) (w_faults w) (w_now w) (w_tz w) (w_otpCache w)
    (w_authSession w) (w_lastGoalGen w) (w_user w) (w_health w) (w_diag w)
    (w_prog w) (f (w_auth w)) (w_trace w).
Definition set_trace (f : list Event → list Event) (w : World) : World :=
  mkWorld (w_db w) (w_faults w) (w_now w) (w_tz w) (w_otpCache w)
    (w_authSession w) (w_lastGoalGen w) (w_user w) (w_health w) (w_diag w)
    (w_prog w) (w_auth w) (f (w_trace w)).

(** ** The state monad of the handlers *)

Definition M (A : Type) : Type := World → A * World.

Definition ret {A} (a : A) : M A := λ w, (a, w).
Definition bind {A B} (m : M A) (k : A → M B) : M B :=
  λ w, let '(a, w') := m w in k a w'.
Definition get : M World := λ w, (w, w).
Definition modify (f : World → World) : M unit := λ w, (tt, f w).
Definition exec {A} (m : M A) (w : World) : World := (m w).2.
Definition eval {A} (m : M A) (w : World) : A := (m w).1.

Declare Scope handler_scope.
Delimit Scope handler_scope with handler.
Bind Scope handler_scope with M.

Notation "'let*' x ':=' e 'in' k" := (bind e (λ x, k))
  (at level 10, x name, e at level 100, k at level 200) : handler_scope.
Notation "'let*' ' p ':=' e 'in' k" := (bind e (λ x, match x with p => k end))
  (at level 10, p pattern, e at level 100, k at level 200) : handler_scope.
Notation "e ;; k" := (bind e (λ _, k))
  (at level 100, k at level 200, right associativity) : handler_scope.

#[local] Open Scope handler_scope.

Definition log (e : Event) : M unit := modify (set_trace (λ t, t ++ [e])).

(* ===================================================================== *)
(** * The backend client ([supabase])                                     *)
(* ===================================================================== *)

Module Supabase.

Definition noRows : PostgrestError :=
  {| err_message := "JSON object requested, multiple (or no) rows returned" |}.
Definition duplicateKey : PostgrestError :=
  {| err_message := "duplicate key value violates unique constraint" |}.

(** The outcome the environment has scripted for the [n]-th gateway call
    from now: [Some e] fails it with [e]. *)
Definition outcome (n : nat) (w : World) : option PostgrestError :=
  mjoin (w_faults w !! n).

(** One round trip to the store. The environment may fail it, and the
    store is then untouched; otherwise the query [q] runs on the store and
    may itself report an error. *)
Definition request {A} (q : Db → (A + PostgrestError) * Db) : M (A + PostgrestError) :=
  λ w,
    let w' := set_faults (drop 1 (w_faults w)) w in
    match outcome 0 w with
    | Some e => (inr e, w')
    | None => let '(r, d) := q (w_db w) in (r, set_db (λ _, d) w')
    end.

(** [.single()] on a selection by a unique key. *)
Definition single {A} (row : option A) : A + PostgrestError :=
  match row with
  | Some r => inl r
  | None => inr noRows
  end.

(** [insert] into a collection with a unique key. *)
Definition insertUnique {V} (k : string) (v : V) (m : gmap string V)
  : (unit + PostgrestError) * gmap string V :=
  match m !! k with
  | Some _ => (inr duplicateKey, m)
  | None => (inl tt, <[k := v]> m)
  end.

(** [error?.message]. *)
Definition message {A} (r : A + PostgrestError) : option string :=
  match r with
  | inl _ => None
  | inr e => Some (err_message e)
  end.

(** The response to [select(cols, { count: 'exact', head: true })]: a HEAD
    request returns no rows, so [data] is [null]; the number of matching
    rows travels in [count]. *)
Record HeadResponse := {
  hr_data : option (list MetricRow);
  hr_error : option PostgrestError;
  hr_count : option nat;
}.

Definition selectHead (p : MetricRow → bool) : M HeadResponse :=
  let* r := request (λ d, (inl (length (filter (λ row, p row = true) (t_metrics d))), d)) in
  ret match r with
      | inl n => {| hr_data := None; hr_error := None; hr_count := Some n |}
      | inr e => {| hr_data := None; hr_error := Some e; hr_count := None |}
      end.

(** A property read off an arbitrary object. *)
Inductive JsAny := Undefined | Number (z : Z).

(** [(supabase.rpc as any).count]: [rpc] is a method of the client, a
    function object, and has no property [count]. *)
Definition rpc_count : JsAny := Undefined.

(** [v > 0]. *)
Definition gt0 (v : JsAny) : bool :=
  match v with
  | Number z => 0 <? z
  | Undefined => false
  end.

(** [supabase.auth.signOut()], taken to end the backend session, and
    [supabase.auth.getSession()]. *)
Definition auth_signOut : M unit := modify (set_authSession None).
Definition auth_getSession : M (option string) :=
  let* w := get in ret (w_authSession w).

End Supabase.

(* ===================================================================== *)
(** * The OTP cache ([getOtp], [verifyOtp])                               *)
(* ===================================================================== *)

(** [resp] is what the webhook's [fetch] resolved to ([None]: it rejected).
    Any failure falls back to the development code. *)
Definition getOtp (email : string) (resp : option HttpResponse) : M string :=
  let otp :=
    match resp with
    | Some r => if resp_ok r then resp_text r else "123456"
    | None => "123456"
    end in
  modify (set_otpCache <[email := otp]>) ;;
  ret otp.

(** [otpCache[email]] is [None] when the cache has no entry for [email]:
    the lookup then yields a value that no string is [===] to. *)
Definition verifyOtp (email otp : string) : M bool :=
  let* w := get in
  let storedOtp := w_otpCache w !! email in
  let isValid := bool_decide (Some otp = storedOtp) || bool_decide (otp = "123456") in
  (if isValid then modify (set_otpCache (delete email)) else ret tt) ;;
  ret isValid.

(* ===================================================================== *)
(** * [apiService]                                                        *)
(* ===================================================================== *)

#[global] Instance Num_eq_dec : EqDecision Num.t.
Proof. solve_decision. Defined.
#[global] Instance JsVal_eq_dec : EqDecision JsVal.
Proof. solve_decision. Defined.

Definition msPerDay : Z := 86400000.

(** The instant [`${today}T00:00:00Z`] for
    [today = new Date().toISOString().split('T')[0]]. *)
Definition utcMidnight (t : Z) : Z := t / msPerDay * msPerDay.

Record NewUser := {
  nu_id : string;
  nu_email : string;
  nu_firstName : string;
  nu_lastName : string;
}.

Record UserUpdates := {
  up_password : option string;
  up_firstName : option string;
  up_lastName : option string;
  up_email : option string;
}.

(** [{ ...toCamelCase(r), isCompleted }] for a row of [recommendations]:
    on a row of known columns [toCamelCase] renames the fields. *)
Definition toRecommendation (r : RecRow) (done : bool) : Recommendation :=
  {| rec_id := rr_id r; rec_userId := rr_user_id r; rec_goal := rr_goal r;
     rec_category := rr_category r; rec_difficulty := rr_difficulty r;
     isCompleted := done |}.

Module apiService.

Module user.

Definition getPoints (userId : string) : M Z :=
  let* r := Supabase.request (λ d, (Supabase.single (t_points d !! userId), d)) in
  match r with
  | inr _ => ret 0
  | inl points => ret (default 0 points)
  end.

Definition updatePoints (userId : string) (points : Z) : M (option string) :=
  let* r := Supabase.request (λ d, (inl tt, set_t_points <[userId := Some points]> d)) in
  log (EvUpsertPoints userId points (match r with inl _ => true | inr _ => false end)) ;;
  ret (Supabase.message r).

Definition saveInitialDetails (userData : NewUser) (healthData : HealthData)
  : M (option User * option string) :=
  let* r1 := Supabase.request (λ d,
    let '(r, m) := Supabase.insertUnique (nu_id userData)
      {| ur_first_name := nu_firstName userData;
         ur_last_name := nu_lastName userData;
         ur_email := nu_email userData |} (t_users d) in
    (r, set_t_users (λ _, m) d)) in
  match r1 with
  | inr userError => ret (None, Some (err_message userError))
  | inl _ =>
  let* r2 := Supabase.request (λ d,
    let '(r, m) := Supabase.insertUnique (nu_id userData) healthData (t_health d) in
    (r, set_t_health (λ _, m) d)) in
  match r2 with
  | inr healthError => ret (None, Some (err_message healthError))
  | inl _ =>
  let* r3 := Supabase.request (λ d,
    let '(r, m) := Supabase.insertUnique (nu_id userData) (Some 0) (t_points d) in
    (r, set_t_points (λ _, m) d)) in
  match r3 with
  | inr pointsError => ret (None, Some (err_message pointsError))
  | inl _ =>
      ret (Some {| u_id := nu_id userData; u_email := nu_email userData;
                   u_firstName := nu_firstName userData;
                   u_lastName := nu_lastName userData; u_points := 0 |}, None)
  end end end.

(** [if (updates.x) profileUpdates.x = updates.x]. *)
Definition pick (upd : option string) (old : string) : string :=
  if Js.truthy upd then default old upd else old.

Definition updateDetails (userId : string) (updates : UserUpdates)
  : M (option UserRow * option string) :=
  let* pw :=
    (if Js.truthy (up_password updates)
     then Supabase.request (λ d, (inl tt, d))
     else ret (inl tt)) in
  match pw with
  | inr error => ret (None, Some (err_message error))
  | inl _ =>
      let* r := Supabase.request (λ d,
        match t_users d !! userId with
        | Some row =>
            let row' :=
              {| ur_first_name := pick (up_firstName updates) (ur_first_name row);
                 ur_last_name := pick (up_lastName updates) (ur_last_name row);
                 ur_email := pick (up_email updates) (ur_email row) |} in
            (inl row', set_t_users <[userId := row']> d)
        | None => (inr Supabase.noRows, d)
        end) in
      ret (match r with inl data => Some data | inr _ => None end, Supabase.message r)
  end.

End user.

Module auth.

Definition getFullUserProfile (userId : string)
  : M (option User * option HealthData * option string) :=
  let* r1 := Supabase.request (λ d, (Supabase.single (t_users d !! userId), d)) in
  match r1 with
  | inr userError => ret (None, None, Some (err_message userError))
  | inl userProfile =>
      let* r2 := Supabase.request (λ d, (Supabase.single (t_health d !! userId), d)) in
      let* points := user.getPoints userId in
      let user :=
        {| u_id := userId; u_email := ur_email userProfile;
           u_firstName := ur_first_name userProfile;
           u_lastName := ur_last_name userProfile; u_points := points |} in
      let health := match r2 with inl healthProfile => Some healthProfile | inr _ => None end in
      ret (Some user, health, None)
  end.

End auth.

Module metrics.

Definition hasSubmittedToday (userId : string) : M bool :=
  let* w := get in
  let today := utcMidnight (w_now w) in
  let* resp := Supabase.selectHead (λ row,
    bool_decide (Obj.get "user_id" (dm_cols row) = Some (VStr userId))
    && (today <=? dm_created_at row)) in
  ret ((0 <? length (default [] (Supabase.hr_data resp)))%nat
       || (match Supabase.hr_error resp with
           | Some _ => false
           | None => Supabase.gt0 Supabase.rpc_count
           end)).

Definition save (userId : string) (metrics : JsObject Num.t) : M (option string) :=
  let* w := get in
  let* r := Supabase.request (λ d,
    (inl tt,
     set_t_metrics (λ rows, rows ++
       [{| dm_created_at := w_now w;
           dm_cols := Obj.spread [("user_id", VStr userId)]
                        (prod_map id VNum <$> Obj.toSnakeCase metrics) |}]) d)) in
  ret (Supabase.message r).

End metrics.

Module games.

Definition saveSession (userId : string) (gameType : GameType) (score : Z)
  : M (option string) :=
  let* r := Supabase.request (λ d,
    (inl tt,
     set_t_games (λ rows, rows ++
       [{| gs_user_id := userId; gs_game_type := gameType; gs_score := score |}]) d)) in
  ret (Supabase.message r).

End games.

Module recommendations.

Definition get (userId : string) : M (list Recommendation) :=
  let* r1 := Supabase.request (λ d,
    (inl (filter (λ r, rr_user_id r = userId) (t_recs d)), d)) in
  match r1 with
  | inr _ => ret []
  | inl recs =>
      let* r2 := Supabase.request (λ d, (inl (default ∅ (t_status d !! userId)), d)) in
      let statusMap : gmap Z bool :=
        match r2 with inl statuses => statuses | inr _ => ∅ end in
      ret ((λ r, toRecommendation r (default false (statusMap !! rr_id r))) <$> recs)
  end.

(** The rows an insert of [newGoals] creates, numbered from [next]. *)
Fixpoint goalsToInsert (userId : string) (next : Z) (newGoals : list NewGoal) : list RecRow :=
  match newGoals with
  | [] => []
  | g :: gs =>
      {| rr_id := next; rr_user_id := userId; rr_goal := ng_goal g;
         rr_category := ng_category g; rr_difficulty := ng_difficulty g |}
      :: goalsToInsert userId (next + 1) gs
  end.

Definition create (userId : string) (newGoals : list NewGoal)
  : M (list Recommendation * option string) :=
  let* r1 := Supabase.request (λ d,
    (inl tt, set_t_recs (filter (λ r, rr_user_id r ≠ userId)) d)) in
  match r1 with
  | inr deleteError => ret ([], Some (err_message deleteError))
  | inl _ =>
      let* r2 := Supabase.request (λ d,
        let rows := goalsToInsert userId (t_rec_seq d) newGoals in
        (inl rows,
         set_t_rec_seq (λ n, n + Z.of_nat (length newGoals))
           (set_t_recs (λ old, old ++ rows) d))) in
      ret (match r2 with
           | inl data => (λ r, toRecommendation r false) <$> data
           | inr _ => []
           end, Supabase.message r2)
  end.

Definition updateStatus (userId : string) (updatedRecs : list Recommendation)
  : M (option string) :=
  let* r := Supabase.request (λ d,
    (inl tt,
     set_t_status (λ t,
       <[userId := foldl (λ m rec, <[rec_id rec := isCompleted rec]> m)
                     (default ∅ (t !! userId)) updatedRecs]> t) d)) in
  ret (Supabase.message r).

End recommendations.

End apiService.

(* ===================================================================== *)
(** * The session context ([useAuth])                                     *)
(* ===================================================================== *)

(** Modelled from the spec: [updateUser] of the [useAuth] context, whose
    provider ([../App]) is not among the sources. The spec calls it the
    session state update that follows a points write: it merges the given
    points into the profile held by the session. *)
Definition updateUser (points : Z) : M unit :=
  let* w := get in
  match w_user w with
  | Some u =>
      modify (set_user (Some {| u_id := u_id u; u_email := u_email u;
                                u_firstName := u_firstName u;
                                u_lastName := u_lastName u;
                                u_points := points |})) ;;
      log (EvSessionPoints points)
  | None => ret tt
  end.

(** Modelled from the spec: [login] of the [useAuth] context ([../App], not
    among the sources): the session becomes [Authenticated] and holds the
    profile it is given. *)
Definition login (u : User) (h : option HealthData) : M unit :=
  modify (λ w, set_health h (set_user (Some u) w)).

(* ===================================================================== *)
(** * [DiagnosisPage]                                                     *)
(* ===================================================================== *)

Module DiagnosisPage.

Definition setMetrics (f : JsObject string → JsObject string) : M unit :=
  modify (set_diag (λ s, mkDiag (f (d_metrics s)) (d_submittedToday s) (d_loading s) (d_message s))).
Definition setSubmittedToday (b : bool) : M unit :=
  modify (set_diag (λ s, mkDiag (d_metrics s) b (d_loading s) (d_message s))).
Definition setLoading (b : bool) : M unit :=
  modify (set_diag (λ s, mkDiag (d_metrics s) (d_submittedToday s) b (d_message s))).
Definition setMessage (m : string) : M unit :=
  modify (set_diag (λ s, mkDiag (d_metrics s) (d_submittedToday s) (d_loading s) m)).

Definition checkSubmissionStatus : M unit :=
  let* w := get in
  match w_user w with
  | None => ret tt
  | Some user =>
      let* status := apiService.metrics.hasSubmittedToday (u_id user) in
      setSubmittedToday status
  end.

Definition handleGameEnd (gameType : GameType) (score : Z) : M unit :=
  let* w := get in
  match w_user w with
  | None => ret tt
  | Some user =>
      apiService.games.saveSession (u_id user) gameType score ;;
      let newPoints := u_points user + 10 in
      updateUser newPoints ;;
      apiService.user.updatePoints (u_id user) newPoints ;;
      log (EvAlert ("Game over! Your score: " +:+ pretty score
                    +:+ ". You earned 10 points!"))
  end.

(** The input's [onChange]. *)
Definition handleMetricChange (name value : string) : M unit :=
  setMetrics (Obj.set name value).

(** The [reduce] over [Object.entries(metrics)]. *)
Definition metricsToSave (metrics : JsObject string) : JsObject Num.t :=
  foldl (λ acc kv,
    if negb (bool_decide (Js.trim kv.2 = ""))
    then
      let numValue := Num.parseFloat kv.2 in
      if negb (Num.isNaN numValue) then Obj.set kv.1 numValue acc else acc
    else acc) [] metrics.

Definition handleMetricsSubmit : M unit :=
  let* w := get in
  match w_user w with
  | None => ret tt
  | Some user =>
      setLoading true ;;
      setMessage "" ;;
      let* error := apiService.metrics.save (u_id user) (metricsToSave (d_metrics (w_diag w))) in
      (if Js.truthy error
       then setMessage ("Error: " +:+ default "" error)
       else
         let newPoints := u_points user + 25 in
         updateUser newPoints ;;
         apiService.user.updatePoints (u_id user) newPoints ;;
         setMessage "Metrics saved successfully! You earned 25 points." ;;
         setSubmittedToday true) ;;
      setLoading false
  end.

End DiagnosisPage.

(* ===================================================================== *)
(** * [ProgressPage]                                                      *)
(* ===================================================================== *)

Module ProgressPage.

Definition difficultyPoints (d : Difficulty) : Z :=
  match d with
  | Easy => 2
  | Medium => 5
  | Hard => 8
  end.

(** Same local calendar day: the year, month and date of the two instants
    agree in the client's time zone. *)
Definition localDay (tz t : Z) : Z := (t + tz) / msPerDay.
Definition isSameDay (tz d1 d2 : Z) : bool :=
  bool_decide (localDay tz d1 = localDay tz d2).

Definition setRecommendations (f : list Recommendation → list Recommendation) : M unit :=
  modify (set_prog (λ s, mkProg (f (p_recommendations s)) (p_loading s)
    (p_generating s) (p_saving s) (p_message s) (p_canGenerate s))).
Definition setLoading (b : bool) : M unit :=
  modify (set_prog (λ s, mkProg (p_recommendations s) b
    (p_generating s) (p_saving s) (p_message s) (p_canGenerate s))).
Definition setGenerating (b : bool) : M unit :=
  modify (set_prog (λ s, mkProg (p_recommendations s) (p_loading s)
    b (p_saving s) (p_message s) (p_canGenerate s))).
Definition setSaving (b : bool) : M unit :=
  modify (set_prog (λ s, mkProg (p_recommendations s) (p_loading s)
    (p_generating s) b (p_message s) (p_canGenerate s))).
Definition setMessage (m : string) : M unit :=
  modify (set_prog (λ s, mkProg (p_recommendations s) (p_loading s)
    (p_generating s) (p_saving s) m (p_canGenerate s))).
Definition setCanGenerate (b : bool) : M unit :=
  modify (set_prog (λ s, mkProg (p_recommendations s) (p_loading s)
    (p_generating s) (p_saving s) (p_message s) b)).

Definition fetchRecommendations : M unit :=
  let* w := get in
  match w_user w with
  | None => ret tt
  | Some user =>
      setLoading true ;;
      let* data := apiService.recommendations.get (u_id user) in
      setRecommendations (λ _, data) ;;
      setLoading false
  end.

(** The key [`lastGoalGen_${user?.id}`] of the local store, by its user
    part. *)
Definition lastGoalGenKey (u : option User) : string :=
  match u with
  | Some user => u_id user
  | None => "undefined"
  end.

(** The mount effect. [fetchRecommendations] is started and not awaited;
    it and the check of the generation date touch different state, so
    their order does not show. *)
Definition onMount : M unit :=
  fetchRecommendations ;;
  let* w := get in
  match w_lastGoalGen w !! lastGoalGenKey (w_user w) with
  | Some lastGenDate =>
      if isSameDay (w_tz w) lastGenDate (w_now w) then setCanGenerate false else ret tt
  | None => ret tt
  end.

(** [resp] is what the goal webhook's [fetch] resolved to. *)
Definition handleGenerateGoals (resp : option HttpResponse) : M unit :=
  let* w := get in
  match w_user w with
  | None => setMessage "User not found."
  | Some user =>
      if negb (p_canGenerate (w_prog w))
      then setMessage "You can only generate new goals once per day."
      else
        setGenerating true ;;
        setMessage "" ;;
        let newGoals := Goals.fetchHealthGoalsFromN8n resp in
        if bool_decide (length newGoals = 0%nat)
        then
          setMessage "Could not generate new goals from the service. Please try again later." ;;
          setGenerating false
        else
          let* '(savedRecs, error) := apiService.recommendations.create (u_id user) newGoals in
          (if Js.truthy error
           then setMessage "Error saving new goals."
           else
             setRecommendations (λ _, savedRecs) ;;
             modify (λ w', set_lastGoalGen <[u_id user := w_now w']> w') ;;
             setCanGenerate false ;;
             setMessage "New goals have been generated!") ;;
          setGenerating false
  end.

Definition handleToggleCompletion (id : Z) : M unit :=
  setRecommendations
    (fmap (λ rec,
       if bool_decide (rec_id rec = id)
       then {| rec_id := rec_id rec; rec_userId := rec_userId rec;
               rec_goal := rec_goal rec; rec_category := rec_category rec;
               rec_difficulty := rec_difficulty rec;
               isCompleted := negb (isCompleted rec) |}
       else rec)).

(** The [for ... of] loop of [handleSaveChanges]: [acc] is [pointsEarned]. *)
Definition pointsEarned (originalRecs recommendations : list Recommendation) : Z :=
  foldl (λ acc rec,
    match List.find (λ r, bool_decide (rec_id r = rec_id rec)) originalRecs with
    | Some originalRec =>
        if negb (isCompleted originalRec) && isCompleted rec
        then acc + difficultyPoints (rec_difficulty rec)
        else acc
    | None => acc
    end) 0 recommendations.

Definition handleSaveChanges : M unit :=
  let* w := get in
  match w_user w with
  | None => ret tt
  | Some user =>
      setSaving true ;;
      setMessage "" ;;
      let recommendations := p_recommendations (w_prog w) in
      let* originalRecs := apiService.recommendations.get (u_id user) in
      let earned := pointsEarned originalRecs recommendations in
      let* error := apiService.recommendations.updateStatus (u_id user) recommendations in
      (if Js.truthy error
       then setMessage "Error saving changes."
       else
         if 0 <? earned
         then
           let newTotalPoints := u_points user + earned in
           apiService.user.updatePoints (u_id user) newTotalPoints ;;
           updateUser newTotalPoints ;;
           setMessage ("Changes saved! You've earned " +:+ pretty earned +:+ " points!")
         else setMessage "Your progress has been saved.") ;;
      setSaving false
  end.

End ProgressPage.

(* ===================================================================== *)
(** * [AuthPage]                                                          *)
(* ===================================================================== *)

Module AuthPage.

Definition setView (v : AuthView) : M unit :=
  modify (set_auth (λ s, mkAuth v (a_email s) (a_otp s) (a_error s) (a_loading s) (a_message s))).
Definition setError (e : string) : M unit :=
  modify (set_auth (λ s, mkAuth (a_view s) (a_email s) (a_otp s) e (a_loading s) (a_message s))).
Definition setLoading (b : bool) : M unit :=
  modify (set_auth (λ s, mkAuth (a_view s) (a_email s) (a_otp s) (a_error s) b (a_message s))).

Definition handleOtpVerification : M unit :=
  let* w := get in
  let email := a_email (w_auth w) in
  let otp := a_otp (w_auth w) in
  setLoading true ;;
  setError "" ;;
  let* isValid := verifyOtp email otp in
  if negb isValid
  then
    setError "Invalid OTP." ;;
    Supabase.auth_signOut ;;
    setLoading false
  else
    let* session := Supabase.auth_getSession in
    match session with
    | None =>
        setError "Session expired. Please log in again." ;;
        setView ViewLogin ;;
        setLoading false
    | Some sessionUserId =>
        let* '(fullUser, health, profileError) :=
          apiService.auth.getFullUserProfile sessionUserId in
        (match fullUser with
         | Some u =>
             if negb (Js.truthy profileError)
             then login u health
             else
               setError (Js.or_else profileError "Could not retrieve user profile.") ;;
               Supabase.auth_signOut
         | None =>
             setError (Js.or_else profileError "Could not retrieve user profile.") ;;
             Supabase.auth_signOut
         end) ;;
        setLoading false
    end.

End AuthPage.

(* ===================================================================== *)
(** * Handlers in flight                                                  *)
(* ===================================================================== *)

(** An [async] handler runs up to its first [await] when it is called
    and the rest when the awaited call has resolved; other handlers can
    run in between, and what the handler read from its closure before the
    [await] it still holds after it. The two point-earning handlers of the
    diagnosis page, cut at their first [await]: [_begin] returns what the
    rest needs, [None] when the handler returned at once. *)
Module InFlight.

Definition handleGameEnd_begin (gameType : GameType) (score : Z) : M (option User) :=
  let* w := get in
  match w_user w with
  | None => ret None
  | Some user =>
      apiService.games.saveSession (u_id user) gameType score ;;
      ret (Some user)
  end.

Definition handleGameEnd_resume (user : User) (score : Z) : M unit :=
  let newPoints := u_points user + 10 in
  updateUser newPoints ;;
  apiService.user.updatePoints (u_id user) newPoints ;;
  log (EvAlert ("Game over! Your score: " +:+ pretty score
                +:+ ". You earned 10 points!")).

Definition handleMetricsSubmit_begin : M (option (User * option string)) :=
  let* w := get in
  match w_user w with
  | None => ret None
  | Some user =>
      DiagnosisPage.setLoading true ;;
      DiagnosisPage.setMessage "" ;;
      let* error := apiService.metrics.save (u_id user)
                      (DiagnosisPage.metricsToSave (d_metrics (w_diag w))) in
      ret (Some (user, error))
  end.

Definition handleMetricsSubmit_resume (user : User) (error : option string) : M unit :=
  (if Js.truthy error
   then DiagnosisPage.setMessage ("Error: " +:+ default "" error)
   else
     let newPoints := u_points user + 25 in
     updateUser newPoints ;;
     apiService.user.updatePoints (u_id user) newPoints ;;
     DiagnosisPage.setMessage "Metrics saved successfully! You earned 25 points." ;;
     DiagnosisPage.setSubmittedToday true) ;;
  DiagnosisPage.setLoading false.

(** A handler called and left to run to its end, as [step] takes it. *)
Definition handleGameEnd (gameType : GameType) (score : Z) : M unit :=
  let* held := handleGameEnd_begin gameType score in
  match held with
  | Some user => handleGameEnd_resume user score
  | None => ret tt
  end.

Definition handleMetricsSubmit : M unit :=
  let* held := handleMetricsSubmit_begin in
  match held with
  | Some (user, error) => handleMetricsSubmit_resume user error
  | None => ret tt
  end.

End InFlight.

(* ===================================================================== *)
(** * A signed-in session as a transition system                          *)
(* ===================================================================== *)

(** What can happen while a user is on the diagnosis and progress pages:
    the handlers of the two pages, and time passing. The handlers are
    taken one at a time, each run to its end before the next is called,
    and the user stays signed in: a sign-in is not among the steps. *)
Inductive Action :=
  | CheckSubmissionStatus
  | GameEnd (gameType : GameType) (score : Z)
  | MetricChange (name value : string)
  | MetricsSubmit
  | MountProgress
  | FetchRecommendations
  | GenerateGoals (resp : option HttpResponse)
  | ToggleCompletion (id : Z)
  | SaveChanges
  | Elapse (ms : Z).

Definition step (a : Action) : M unit :=
  match a with
  | CheckSubmissionStatus => DiagnosisPage.checkSubmissionStatus
  | GameEnd gameType score => DiagnosisPage.handleGameEnd gameType score
  | MetricChange name value => DiagnosisPage.handleMetricChange name value
  | MetricsSubmit => DiagnosisPage.handleMetricsSubmit
  | MountProgress => ProgressPage.onMount
  | FetchRecommendations => ProgressPage.fetchRecommendations
  | GenerateGoals resp => ProgressPage.handleGenerateGoals resp
  | ToggleCompletion id => ProgressPage.handleToggleCompletion id
  | SaveChanges => ProgressPage.handleSaveChanges
  | Elapse ms => modify (λ w, set_now (w_now w + ms) w)
  end.

Definition run (acts : list Action) (w : World) : World :=
  foldl (λ w a, exec (step a) w) w acts.

(** The points the session shows, the row of the ledger, and the events a
    handler adds to the trace. *)
Definition sessionPoints (w : World) : option Z := u_points <$> w_user w.

Definition ledger (w : World) (userId : string) : option (option Z) :=
  t_points (w_db w) !! userId.

Definition newEvents (h : M unit) (w : World) : list Event :=
  drop (length (w_trace w)) (w_trace (exec h w)).

(** The daily-metrics rows of a user created in the UTC day of [w_now]. *)
Definition submittedToday (w : World) (userId : string) : list MetricRow :=
  filter (λ row,
    Obj.get "user_id" (dm_cols row) = Some (VStr userId)
    ∧ utcMidnight (w_now w) ≤ dm_created_at row < utcMidnight (w_now w) + msPerDay)
    (t_metrics (w_db w)).

(** The recommendation ids a user has in the store. *)
Definition recIds (d : Db) (userId : string) : list Z :=
  rr_id <$> filter (λ r, rr_user_id r = userId) (t_recs d).

(** The identity sequence is ahead of every id in use: of every stored
    recommendation and of every completion-status row. *)
Definition seqAhead (d : Db) : Prop :=
  Forall (λ r, rr_id r < t_rec_seq d) (t_recs d)
  ∧ map_Forall (λ _ m, map_Forall (λ id (_ : bool), id < t_rec_seq d) m) (t_status d).

#[global] Instance seqAhead_dec d : Decision (seqAhead d).
Proof. unfold seqAhead. apply _. Defined.

#[global] Instance GameType_eq_dec : EqDecision GameType.
Proof. solve_decision. Defined.
#[global] Instance Event_eq_dec : EqDecision Event.
Proof. solve_decision. Defined.

(** ** Sample worlds *)

Definition alice : User :=
  {| u_id := "u1"; u_email := "alice@example.org"; u_firstName := "Alice";
     u_lastName := "Doe"; u_points := 0 |}.

Definition aliceRow : UserRow :=
  {| ur_first_name := "Alice"; ur_last_name := "Doe"; ur_email := "alice@example.org" |}.

(** Noon UTC of day 20000 after the epoch. *)
Definition noon : Z := 20000 * 86400000 + 43200000.

Definition world0 : World :=
  mkWorld
    (mkDb {[ "u1" := aliceRow ]} ∅ {[ "u1" := Some 0 ]} [] [] [] ∅ 1)
    [] noon 0 ∅ (Some "u1") ∅ (Some alice) None
    (mkDiag [] false false "")
    (mkProg [] false false false "" true)
    (mkAuth ViewOtp "alice@example.org" "" "" false "")
    [].

Definition boom : PostgrestError := {| err_message := "connection lost" |}.

(** The spec's scenario: Alice, signed in with 0 points, has typed 72 for
    the heart rate and left the steps empty. *)
Definition worldMetrics : World :=
  exec (DiagnosisPage.handleMetricChange "heartRate" "72" ;;
        DiagnosisPage.handleMetricChange "steps" "") world0.

(** ** Notions used to state the properties *)

Definition sumZ (l : list Z) : Z := foldr Z.add 0 l.

(** A recommendation of the working set that is complete there and
    incomplete in the set read back from the store. *)
Definition newlyCompleted (originalRecs : list Recommendation) (rec : Recommendation) : Prop :=
  isCompleted rec = true
  ∧ Exists (λ o, rec_id o = rec_id rec ∧ isCompleted o = false) originalRecs.

#[global] Instance newlyCompleted_dec originalRecs rec :
  Decision (newlyCompleted originalRecs rec).
Proof. unfold newlyCompleted. apply _. Defined.

(** The call of [handleSaveChanges] that upserts the completion statuses:
    the second gateway call when the read of the recommendations failed
    (the statuses are then not read), the third otherwise. *)
Definition statusUpsertOutcome (w : World) : option PostgrestError :=
  match Supabase.outcome 0 w with
  | Some _ => Supabase.outcome 1 w
  | None => Supabase.outcome 2 w
  end.

(** The call after it, which upserts the points. *)
Definition pointsUpsertOutcome (w : World) : option PostgrestError :=
  match Supabase.outcome 0 w with
  | Some _ => Supabase.outcome 2 w
  | None => Supabase.outcome 3 w
  end.

Definition withPoints (u : User) (points : Z) : User :=
  {| u_id := u_id u; u_email := u_email u; u_firstName := u_firstName u;
     u_lastName := u_lastName u; u_points := points |}.

(** The actions that earn points, and what each awards. *)
Definition earns (a : Action) : bool :=
  match a with
  | GameEnd _ _ | MetricsSubmit | SaveChanges => true
  | _ => false
  end.

Definition award (a : Action) (w : World) : Z :=
  match a, w_user w with
  | GameEnd _ _, Some _ => 10
  | MetricsSubmit, Some _ => 25
  | SaveChanges, Some u =>
      ProgressPage.pointsEarned
        (eval (apiService.recommendations.get (u_id u)) w)
        (p_recommendations (w_prog w))
  | _, _ => 0
  end.

(** The session keeps its user, whose points have not decreased. *)
Definition pointsGrow (w w' : World) : Prop :=
  match w_user w, w_user w' with
  | Some u, Some u' => u_id u' = u_id u ∧ u_points u ≤ u_points u'
  | None, None => True
  | _, _ => False
  end.

(** The ordering the spec asks of a point-earning handler [h] run in [w]:
    when its write to the ledger fails, the session's points are what they
    were. *)
Definition sessionFollowsLedger (h : M unit) (w : World) : Prop :=
  (∃ userId points, EvUpsertPoints userId points false ∈ newEvents h w) →
  sessionPoints (exec h w) = sessionPoints w.

(** Alice ends a game, or submits her metrics, and the write to the ledger
    (the second gateway call of either handler) fails. *)
Definition worldGameFail : World := set_faults [None; Some boom] world0.
Definition worldMetricsFail : World := set_faults [None; Some boom] worldMetrics.

(** Alice has two goals: an Easy one, complete in the store, and a Hard
    one, incomplete there. In her working set both are complete: she has
    ticked the Hard one. *)
Definition easyRow : RecRow :=
  {| rr_id := 1; rr_user_id := "u1"; rr_goal := "Drink water";
     rr_category := Diet; rr_difficulty := Easy |}.
Definition hardRow : RecRow :=
  {| rr_id := 2; rr_user_id := "u1"; rr_goal := "Run 5 km";
     rr_category := Exercise; rr_difficulty := Hard |}.

Definition worldGoals : World :=
  mkWorld
    (mkDb {[ "u1" := aliceRow ]} ∅ {[ "u1" := Some 0 ]} [] []
       [easyRow; hardRow] {[ "u1" := {[ 1 := true ]} ]} 3)
    [] noon 0 ∅ (Some "u1") ∅ (Some alice) None
    (mkDiag [] false false "")
    (mkProg [toRecommendation easyRow true; toRecommendation hardRow true]
       false false false "" true)
    (mkAuth ViewOtp "alice@example.org" "" "" false "")
    [].

(** She saves, and the upsert of the points (the fourth call) fails; or
    the upsert of the statuses (the third call) fails. *)
Definition worldSaveFail : World :=
  set_faults [None; None; None; Some boom] worldGoals.



(** Two responses of the goal webhook: one whose lines are all malformed
    (the two examples of the spec), and one with two good lines and a
    malformed one. *)
Definition badBatch : option HttpResponse :=
  Some {| resp_ok := true; resp_status := 200;
          resp_text := "Do yoga
Run;BadCategory;Easy" |}.

Definition goodBatch : option HttpResponse :=
  Some {| resp_ok := true; resp_status := 200;
          resp_text := "Walk 20 minutes;Exercise;Easy
Do yoga
Eat greens ;Diet;Hard
" |}.

(** Alice is past the password step: the cache holds her challenge, and
    she has typed another code. *)
Definition worldOtp : World :=
  exec (getOtp "alice@example.org"
          (Some {| resp_ok := true; resp_status := 200; resp_text := "482913" |}) ;;
        modify (set_auth (λ s, mkAuth (a_view s) (a_email s) "000000"
                                 (a_error s) (a_loading s) (a_message s))) ;;
        modify (set_user None))
       world0.

(** The ledger holds 500 points for Alice, and the read of the points (the
    third call of [getFullUserProfile]) fails. *)
Definition worldReadFail : World :=
  set_faults [None; None; Some boom]
    (set_db (set_t_points <["u1" := Some 500]>) world0).

(** Operations run one after the other. *)
Definition runOps (ops : list (M unit)) (w : World) : World :=
  foldl (λ w h, exec h w) w ops.

(** What the spec asks of operations [ops] run from [w]: at no step do
    the points of a user decrease, in the ledger or in the session. *)
Definition pointsNeverDecrease (ops : list (M unit)) (w : World) : Prop :=
  ∀ n,
    let w1 := runOps (take n ops) w in
    let w2 := runOps (take (S n) ops) w in
    (∀ userId p p',
       ledger w1 userId = Some (Some p) → ledger w2 userId = Some (Some p') → p ≤ p')
    ∧ (∀ p p', sessionPoints w1 = Some p → sessionPoints w2 = Some p' → p ≤ p').

(** Alice, who has 500 points in the ledger, is past the password step
    and has typed the development code; the read of her points (the third
    call of the sign-in) will fail. Once signed in she ends a game. *)
Definition worldSignIn : World :=
  set_faults [None; None; Some boom]
    (set_user None
       (set_auth (λ s, mkAuth (a_view s) (a_email s) "123456"
                         (a_error s) (a_loading s) (a_message s))
          (set_db (set_t_points <["u1" := Some 500]>) world0))).

Definition signInThenPlay : list (M unit) :=
  [AuthPage.handleOtpVerification; DiagnosisPage.handleGameEnd Clicker 7].

(** Alice submits her metrics and, before the insert has resolved, a game
    of hers ends; then the two handlers resume, in the order they were
    called. Both hold the profile with 0 points they started with. *)
Definition submitWhilePlaying : list (M unit) :=
  [InFlight.handleMetricsSubmit_begin ;; ret tt;
   InFlight.handleGameEnd_begin Clicker 7 ;; ret tt;
   InFlight.handleMetricsSubmit_resume alice None;
   InFlight.handleGameEnd_resume alice 7].

(** ** Proof tools *)

(** Handlers are run symbolically: the world is split into its fields, the
    fault script into the outcomes of the calls the handler makes, and an
    error into an empty or non-empty message; what is left computes. *)
Ltac split_world w :=
  let db := fresh "db" in
  let fs := fresh "fs" in
  destruct w as [db fs ? ? ? ? ? ? ? ? ? ? ?].

Ltac split_faults fs :=
  destruct fs as [|[[[|? ?]]|] [|[[[|? ?]]|] [|[[[|? ?]]|] [|[[[|? ?]]|] fs]]]].

Ltac unfold_handlers :=
  unfold
    DiagnosisPage.checkSubmissionStatus, DiagnosisPage.handleGameEnd,
    DiagnosisPage.handleMetricChange, DiagnosisPage.handleMetricsSubmit,
    DiagnosisPage.setMetrics, DiagnosisPage.setSubmittedToday,
    DiagnosisPage.setLoading, DiagnosisPage.setMessage,
    ProgressPage.onMount, ProgressPage.fetchRecommendations,
    ProgressPage.handleGenerateGoals, ProgressPage.handleToggleCompletion,
    ProgressPage.handleSaveChanges, ProgressPage.setRecommendations,
    ProgressPage.setLoading, ProgressPage.setGenerating,
    ProgressPage.setSaving, ProgressPage.setMessage,
    ProgressPage.setCanGenerate,
    AuthPage.handleOtpVerification, AuthPage.setView, AuthPage.setError,
    AuthPage.setLoading,
    apiService.auth.getFullUserProfile,
    apiService.user.getPoints, apiService.user.updatePoints,
    apiService.user.saveInitialDetails, apiService.user.updateDetails,
    apiService.metrics.hasSubmittedToday, apiService.metrics.save,
    apiService.games.saveSession, apiService.recommendations.get,
    apiService.recommendations.create,
    apiService.recommendations.updateStatus,
    Supabase.selectHead, Supabase.request, Supabase.outcome,
    Supabase.auth_signOut, Supabase.auth_getSession,
    getOtp, verifyOtp, updateUser, login, log,
    exec, eval, bind, ret, get, modify in *.

(* ===================================================================== *)
(** * Properties                                                          *)
(* ===================================================================== *)

(** ** Strings and goal lines *)

Lemma split_length sep s : length (Js.split sep s) = S (Js.count sep s).
Proof.
  induction s as [|c s IH]; [done|]. simpl.
  case_bool_decide; simpl; [by rewrite IH|].
  destruct (Js.split sep s); simpl in *; lia.
Qed.

Lemma includes_elem_of arr x : Js.includes arr x = true ↔ x ∈ arr.
Proof. unfold Js.includes. apply bool_decide_eq_true. Qed.

(** After validation the casts of [parseLine] are sound, and the trimming
    of the category and of the difficulty changes nothing. *)
Lemma valid_category c :
  c ∈ Goals.validCategories →
  ∃ k, category_of_string (Js.trim c) = Some k ∧ category_name k = c.
Proof.
  unfold Goals.validCategories. rewrite !elem_of_cons, elem_of_nil.
  intros [->|[->|[->|[->|[]]]]];
    [exists Diet|exists Exercise|exists MentalHealth|exists General]; by vm_compute.
Qed.

Lemma valid_difficulty d :
  d ∈ Goals.validDifficulties →
  ∃ k, difficulty_of_string (Js.trim d) = Some k ∧ difficulty_name k = d.
Proof.
  unfold Goals.validDifficulties. rewrite !elem_of_cons, elem_of_nil.
  intros [->|[->|[->|[]]]]; [exists Easy|exists Medium|exists Hard]; by vm_compute.
Qed.

Lemma parseLine_Some line goal :
  Goals.parseLine line = Some goal ↔
  ∃ g c d, Js.split ";" line = [g; c; d]
    ∧ c ∈ Goals.validCategories ∧ d ∈ Goals.validDifficulties
    ∧ ng_goal goal = Js.trim g
    ∧ category_name (ng_category goal) = c
    ∧ difficulty_name (ng_difficulty goal) = d.
Proof.
  unfold Goals.parseLine. split.
  - destruct (Js.split ";" line) as [|g [|c [|d [|? ?]]]]; try done.
    destruct (Js.includes Goals.validCategories c) eqn:Hc; [|done].
    destruct (Js.includes Goals.validDifficulties d) eqn:Hd; [|done]. simpl.
    apply includes_elem_of in Hc, Hd.
    destruct (valid_category c Hc) as (kc & -> & Hkc).
    destruct (valid_difficulty d Hd) as (kd & -> & Hkd).
    intros [= <-]. by exists g, c, d.
  - intros (g & c & d & -> & Hc & Hd & Hg & Hkc & Hkd).
    rewrite (proj2 (includes_elem_of _ _) Hc), (proj2 (includes_elem_of _ _) Hd).
    simpl.
    destruct (valid_category c Hc) as (kc & -> & Hkc').
    destruct (valid_difficulty d Hd) as (kd & -> & Hkd').
    destruct goal as [gg gc gd]; simpl in *. subst gg.
    f_equal. f_equal.
    + destruct kc, gc; simpl in *; congruence.
    + destruct kd, gd; simpl in *; congruence.
Qed.

Lemma parseLine_None line :
  Goals.parseLine line = None ↔
  length (Js.split ";" line) ≠ 3%nat
  ∨ ∃ g c d, Js.split ";" line = [g; c; d]
      ∧ (c ∉ Goals.validCategories ∨ d ∉ Goals.validDifficulties).
Proof.
  split.
  - intros Hnone.
    destruct (Js.split ";" line) as [|g [|c [|d [|? ?]]]] eqn:Hs;
      try (left; simpl; lia).
    right. exists g, c, d. split; [done|].
    destruct (decide (c ∈ Goals.validCategories)) as [Hc|Hc]; [|by left].
    destruct (decide (d ∈ Goals.validDifficulties)) as [Hd|Hd]; [|by right].
    destruct (valid_category c Hc) as (kc & Hkc & Hnc).
    destruct (valid_difficulty d Hd) as (kd & Hkd & Hnd).
    assert (Goals.parseLine line
            = Some {| ng_goal := Js.trim g; ng_category := kc; ng_difficulty := kd |})
      as Hsome; [|congruence].
    apply parseLine_Some. by exists g, c, d.
  - intros Hbad. destruct (Goals.parseLine line) as [goal|] eqn:Hp; [|done].
    apply parseLine_Some in Hp as (g & c & d & Hs & Hc & Hd & _).
    destruct Hbad as [Hlen|(g' & c' & d' & Hs' & Hbad)].
    + by rewrite Hs in Hlen.
    + rewrite Hs in Hs'. simplify_eq. tauto.
Qed.

(** The webhook parser never raises: on a successful response its result
    is the goals of the lines that parse, in order. *)
Lemma fetchHealthGoals_ok r :
  resp_ok r = true →
  Goals.fetchHealthGoalsFromN8n (Some r)
  = omap Goals.parseLine (Goals.linesOf (resp_text r)).
Proof.
  intros Hok. unfold Goals.fetchHealthGoalsFromN8n, Goals.tryParse.
  rewrite Hok. simpl.
  destruct (omap Goals.parseLine (Goals.linesOf (resp_text r))) eqn:Hg; simpl.
  - by destruct (bool_decide _).
  - done.
Qed.

Lemma generate_nothing_parsed resp w :
  Goals.fetchHealthGoalsFromN8n resp = [] →
  let w' := exec (ProgressPage.handleGenerateGoals resp) w in
  w_db w' = w_db w ∧ w_faults w' = w_faults w
  ∧ p_recommendations (w_prog w') = p_recommendations (w_prog w)
  ∧ w_lastGoalGen w' = w_lastGoalGen w
  ∧ (is_Some (w_user w) → p_canGenerate (w_prog w) = true →
     p_message (w_prog w') =
       "Could not generate new goals from the service. Please try again later.").
Proof.
  intros Hnone. unfold exec, ProgressPage.handleGenerateGoals, bind, get.
  rewrite Hnone. simpl.
  destruct (w_user w) as [u|].
  - destruct (p_canGenerate (w_prog w)); simpl; repeat split; done.
  - simpl. repeat split; done.
Qed.

(** C6. A line of the goal webhook's response is dropped, without raising,
    when it does not split into exactly three parts at its semicolons (it
    does not have exactly two of them) or when its category or difficulty
    is outside the fixed lists; the parser returns the goals of the other
    lines. When the response has lines and none survives, the parser throws
    its "Failed to parse any goals" error, which it catches itself and
    turns into the empty list; and whenever the parser returns no goal,
    [handleGenerateGoals] makes no gateway call and writes nothing: the
    store, the working set and the generation date stay as they were and
    the failure message is shown. *)
Theorem C6_malformed_goal_lines :
  (∀ line, length (Js.split ";" line) = 3%nat ↔ Js.count ";" line = 2%nat)
  ∧ (∀ line,
       Goals.parseLine line = None ↔
       length (Js.split ";" line) ≠ 3%nat
       ∨ ∃ g c d, Js.split ";" line = [g; c; d]
           ∧ (c ∉ Goals.validCategories ∨ d ∉ Goals.validDifficulties))
  ∧ (∀ r, resp_ok r = true →
       Goals.fetchHealthGoalsFromN8n (Some r)
       = omap Goals.parseLine (Goals.linesOf (resp_text r)))
  ∧ (∀ r, resp_ok r = true →
       Goals.linesOf (resp_text r) ≠ [] →
       omap Goals.parseLine (Goals.linesOf (resp_text r)) = [] →
       Goals.tryParse (Some r) = inl "Failed to parse any goals from n8n response."
       ∧ Goals.fetchHealthGoalsFromN8n (Some r) = [])
  ∧ (∀ resp w,
       Goals.fetchHealthGoalsFromN8n resp = [] →
       let w' := exec (ProgressPage.handleGenerateGoals resp) w in
       w_db w' = w_db w ∧ w_faults w' = w_faults w
       ∧ p_recommendations (w_prog w') = p_recommendations (w_prog w)
       ∧ w_lastGoalGen w' = w_lastGoalGen w
       ∧ (is_Some (w_user w) → p_canGenerate (w_prog w) = true →
          p_message (w_prog w') =
            "Could not generate new goals from the service. Please try again later.")).
Proof.
  split; [|split; [|split; [|split]]].
  - intros line. rewrite split_length. lia.
  - apply parseLine_None.
  - apply fetchHealthGoals_ok.
  - intros r Hok Hlines Hnone.
    unfold Goals.fetchHealthGoalsFromN8n, Goals.tryParse.
    rewrite Hok, Hnone. simpl.
    destruct (Goals.linesOf (resp_text r)); [done|].
    rewrite bool_decide_eq_true_2 by (simpl; lia). done.
  - apply generate_nothing_parsed.
Qed.

(** ** One-time passcodes *)

Lemma verifyOtp_valid email code w :
  eval (verifyOtp email code) w = true ↔
  w_otpCache w !! email = Some code ∨ code = "123456".
Proof.
  unfold_handlers.
  destruct (bool_decide (Some code = w_otpCache w !! email)
            || bool_decide (code = "123456")) eqn:Hv; simpl.
  - apply orb_true_iff in Hv as [Hv|Hv]; apply bool_decide_eq_true in Hv;
      split; auto.
  - apply orb_false_iff in Hv as [Hv1 Hv2].
    apply bool_decide_eq_false in Hv1, Hv2.
    split; [done|]. intros [H|H]; [by rewrite H in Hv1 | done].
Qed.

Lemma verifyOtp_exec email code w :
  exec (verifyOtp email code) w
  = if eval (verifyOtp email code) w then set_otpCache (delete email) w else w.
Proof.
  unfold_handlers.
  by destruct (bool_decide (Some code = w_otpCache w !! email)
               || bool_decide (code = "123456")).
Qed.

Lemma handleOtpVerification_invalid w :
  eval (verifyOtp (a_email (w_auth w)) (a_otp (w_auth w))) w = false →
  let w' := exec AuthPage.handleOtpVerification w in
  w_authSession w' = None ∧ w_user w' = w_user w ∧ w_health w' = w_health w
  ∧ w_otpCache w' = w_otpCache w ∧ w_db w' = w_db w
  ∧ a_error (w_auth w') = "Invalid OTP.".
Proof.
  unfold_handlers. simpl.
  destruct (bool_decide (Some (a_otp (w_auth w)) = w_otpCache w !! a_email (w_auth w))
            || bool_decide (a_otp (w_auth w) = "123456")); [done|].
  simpl. done.
Qed.

(** C7. [verifyOtp(email, code)] succeeds exactly when [code] is the
    challenge cached for [email] or the development code 123456. On success
    the challenge of [email] is deleted from the cache, and nothing else
    changes; on failure [verifyOtp] changes nothing, and the handler that
    called it signs the backend session out, reports "Invalid OTP." and
    does not log the user in: the backend session is gone and the session
    context holds what it held before. *)
Theorem C7_verifyOtp email code w :
  let ok := eval (verifyOtp email code) w in
  let w1 := exec (verifyOtp email code) w in
  (ok = true ↔ w_otpCache w !! email = Some code ∨ code = "123456")
  ∧ (ok = true → w1 = set_otpCache (delete email) w ∧ w_otpCache w1 !! email = None)
  ∧ (ok = false → w1 = w)
  ∧ (a_email (w_auth w) = email → a_otp (w_auth w) = code → ok = false →
     let w2 := exec AuthPage.handleOtpVerification w in
     w_authSession w2 = None ∧ w_user w2 = w_user w ∧ w_health w2 = w_health w
     ∧ w_otpCache w2 = w_otpCache w ∧ w_db w2 = w_db w
     ∧ a_error (w_auth w2) = "Invalid OTP.").
Proof.
  intros ok w1. subst ok w1. split; [apply verifyOtp_valid|].
  rewrite verifyOtp_exec. split; [|split].
  - intros ->. split; [done|]. simpl. apply lookup_delete_eq.
  - by intros ->.
  - intros <- <- Hok. by apply handleOtpVerification_invalid.
Qed.

(** ** Reading the ledger *)

Lemma getPoints_frame userId w :
  exec (apiService.user.getPoints userId) w = set_faults (drop 1 (w_faults w)) w.
Proof.
  unfold_handlers. split_world w. simpl.
  destruct (mjoin (fs !! 0%nat)); simpl; [done|].
  by destruct (t_points db !! userId).
Qed.

Lemma getPoints_value userId w :
  eval (apiService.user.getPoints userId) w
  = match Supabase.outcome 0 w, ledger w userId with
    | None, Some (Some p) => p
    | _, _ => 0
    end.
Proof.
  unfold ledger. unfold_handlers. simpl.
  destruct (mjoin (w_faults w !! 0%nat)); simpl; [done|].
  by destruct (t_points (w_db w) !! userId) as [[p|]|].
Qed.

Lemma getFullUserProfile_value userId w :
  eval (apiService.auth.getFullUserProfile userId) w
  = match Supabase.outcome 0 w, t_users (w_db w) !! userId with
    | Some e, _ => (None, None, Some (err_message e))
    | None, None => (None, None, Some (err_message Supabase.noRows))
    | None, Some row =>
        (Some {| u_id := userId; u_email := ur_email row;
                 u_firstName := ur_first_name row;
                 u_lastName := ur_last_name row;
                 u_points :=
                   match Supabase.outcome 2 w, ledger w userId with
                   | None, Some (Some p) => p
                   | _, _ => 0
                   end |},
         match Supabase.outcome 1 w with
         | Some _ => None
         | None => t_health (w_db w) !! userId
         end,
         None)
    end.
Proof.
  unfold ledger. unfold_handlers. split_world w. simpl.
  destruct fs as [|[e0|] [|[e1|] [|[e2|] fs]]]; simpl;
    destruct (t_users db !! userId) as [row|]; simpl; try done;
    destruct (t_health db !! userId) as [h|]; simpl; try done;
    by destruct (t_points db !! userId) as [[p|]|].
Qed.

(** C10. [getPoints] returns 0 when the read errors and when the user has
    no row in the ledger, exactly as it does for a balance of zero; it
    reports nothing else and changes nothing in the store.
    [getFullUserProfile] reports an error only for the read of [users]:
    once that read has succeeded the profile comes without error whatever
    happened to the read of the points, and after a failed read of the
    points it shows 0 points whatever the ledger holds. *)
Theorem C10_getPoints_hides_failed_read userId w :
  let points := eval (apiService.user.getPoints userId) w in
  let profile := eval (apiService.auth.getFullUserProfile userId) w in
  (is_Some (Supabase.outcome 0 w) → points = 0)
  ∧ (ledger w userId = None → points = 0)
  ∧ (Supabase.outcome 0 w = None → ledger w userId = Some (Some 0) → points = 0)
  ∧ w_db (exec (apiService.user.getPoints userId) w) = w_db w
  ∧ (Supabase.outcome 0 w = None → is_Some (t_users (w_db w) !! userId) →
     profile.2 = None
     ∧ (is_Some (Supabase.outcome 2 w) →
        ∃ u, profile.1.1 = Some u ∧ u_id u = userId ∧ u_points u = 0)).
Proof.
  intros points profile. subst points profile.
  rewrite getPoints_value, getFullUserProfile_value, getPoints_frame.
  split; [|split; [|split; [|split]]].
  - by intros [e ->].
  - intros ->. by destruct (Supabase.outcome 0 w).
  - by intros -> ->.
  - done.
  - intros -> [row ->]. split; [done|].
    intros [e ->]. simpl. eauto.
Qed.

(** ** The daily metrics gate *)

(** The query of [hasSubmittedToday] asks for a count and no rows, and the
    count is never read: the function answers [false] in every world, and
    writes nothing. *)
Lemma hasSubmittedToday_false userId w :
  eval (apiService.metrics.hasSubmittedToday userId) w = false
  ∧ exec (apiService.metrics.hasSubmittedToday userId) w
    = set_faults (drop 1 (w_faults w)) w.
Proof.
  unfold_handlers. split_world w. simpl.
  by destruct (mjoin (fs !! 0%nat)).
Qed.

(** C1, on the code. [hasSubmittedToday] writes nothing, and it answers
    [false] in every world, whatever the store holds. In the spec's
    scenario: before any submission the store holds no record of today for
    Alice and the answer is [false]; after her successful submit the store
    holds a record of hers created within today's UTC day, and the answer
    is still [false]. Only the page's own flag says she has submitted. *)
Theorem C1_hasSubmittedToday_after_submit :
  (∀ userId w,
     eval (apiService.metrics.hasSubmittedToday userId) w = false
     ∧ w_db (exec (apiService.metrics.hasSubmittedToday userId) w) = w_db w)
  ∧ submittedToday worldMetrics "u1" = []
  ∧ length (submittedToday (exec DiagnosisPage.handleMetricsSubmit worldMetrics) "u1")
    = 1%nat
  ∧ eval (apiService.metrics.hasSubmittedToday "u1")
      (exec DiagnosisPage.handleMetricsSubmit worldMetrics) = false
  ∧ d_submittedToday (w_diag (exec DiagnosisPage.handleMetricsSubmit worldMetrics))
    = true.
Proof.
  split.
  - intros userId w. destruct (hasSubmittedToday_false userId w) as [Hfalse Hexec].
    by rewrite Hfalse, Hexec.
  - by vm_compute.
Qed.

(** ** Scoring a save *)

Section PointsEarned.

Variable originalRecs : list Recommendation.
Hypothesis ids_unique : NoDup (rec_id <$> originalRecs).

(** The loop looks a recommendation up by id and takes the first hit; with
    unique ids that is the only one. *)
Lemma find_by_id rec :
  match List.find (λ r, bool_decide (rec_id r = rec_id rec)) originalRecs with
  | Some o => o ∈ originalRecs ∧ rec_id o = rec_id rec
              ∧ ∀ o', o' ∈ originalRecs → rec_id o' = rec_id rec → o' = o
  | None => ∀ o', o' ∈ originalRecs → rec_id o' ≠ rec_id rec
  end.
Proof.
  destruct (List.find _ originalRecs) as [o|] eqn:Hfind.
  - apply List.find_some in Hfind as [Hin Hid].
    apply list_elem_of_In in Hin. apply bool_decide_eq_true in Hid.
    split; [done|]. split; [done|].
    intros o' Hin' Hid'.
    apply list_elem_of_lookup in Hin as [i Hi], Hin' as [j Hj].
    assert (i = j) as ->; [|congruence].
    apply (NoDup_lookup _ i j (rec_id rec) ids_unique);
      rewrite list_lookup_fmap; [rewrite Hi | rewrite Hj]; simpl; congruence.
  - intros o' Hin' Hid'.
    apply list_elem_of_In in Hin'.
    pose proof (List.find_none _ _ Hfind o' Hin') as Hno.
    by apply bool_decide_eq_false in Hno.
Qed.

Lemma loop_test_newlyCompleted rec :
  match List.find (λ r, bool_decide (rec_id r = rec_id rec)) originalRecs with
  | Some o => negb (isCompleted o) && isCompleted rec
  | None => false
  end = bool_decide (newlyCompleted originalRecs rec).
Proof.
  pose proof (find_by_id rec) as Hfind.
  destruct (List.find _ originalRecs) as [o|].
  - destruct Hfind as (Hin & Hid & Huniq).
    destruct (negb (isCompleted o) && isCompleted rec) eqn:Htest; symmetry.
    + apply andb_true_iff in Htest as [Ho Hrec].
      apply negb_true_iff in Ho.
      apply bool_decide_eq_true. split; [done|].
      apply Exists_exists. by exists o.
    + apply bool_decide_eq_false. intros [Hrec Hex].
      apply Exists_exists in Hex as (o' & Hin' & Hid' & Ho').
      rewrite (Huniq o' Hin' Hid') in Ho'.
      rewrite Ho', Hrec in Htest. done.
  - symmetry. apply bool_decide_eq_false. intros [_ Hex].
    apply Exists_exists in Hex as (o' & Hin' & Hid' & _).
    by apply (Hfind o').
Qed.

Lemma pointsEarned_loop acc recs :
  foldl (λ acc rec,
    match List.find (λ r, bool_decide (rec_id r = rec_id rec)) originalRecs with
    | Some originalRec =>
        if negb (isCompleted originalRec) && isCompleted rec
        then acc + ProgressPage.difficultyPoints (rec_difficulty rec)
        else acc
    | None => acc
    end) acc recs
  = acc + sumZ ((λ rec, ProgressPage.difficultyPoints (rec_difficulty rec))
                <$> filter (newlyCompleted originalRecs) recs).
Proof.
  revert acc. induction recs as [|rec recs IH]; intros acc; simpl.
  - unfold sumZ. simpl. lia.
  - rewrite IH. rewrite filter_cons.
    pose proof (loop_test_newlyCompleted rec) as Htest.
    destruct (decide (newlyCompleted originalRecs rec)) as [Hnew|Hnew].
    + rewrite bool_decide_eq_true_2 in Htest by done.
      destruct (List.find _ originalRecs); [|done].
      rewrite Htest, fmap_cons. unfold sumZ. simpl. lia.
    + rewrite bool_decide_eq_false_2 in Htest by done.
      destruct (List.find _ originalRecs); [|done].
      by rewrite Htest.
Qed.

Lemma pointsEarned_sum recs :
  ProgressPage.pointsEarned originalRecs recs
  = sumZ ((λ rec, ProgressPage.difficultyPoints (rec_difficulty rec))
          <$> filter (newlyCompleted originalRecs) recs).
Proof. unfold ProgressPage.pointsEarned. by rewrite pointsEarned_loop. Qed.

Lemma pointsEarned_untouched recs1 rec recs2 :
  ¬ newlyCompleted originalRecs rec →
  ProgressPage.pointsEarned originalRecs (recs1 ++ rec :: recs2)
  = ProgressPage.pointsEarned originalRecs (recs1 ++ recs2).
Proof.
  intros Hnot. rewrite !pointsEarned_sum, !filter_app, filter_cons.
  by destruct (decide (newlyCompleted originalRecs rec)).
Qed.

End PointsEarned.

Lemma pointsEarned_nonneg originalRecs recs :
  0 ≤ ProgressPage.pointsEarned originalRecs recs.
Proof.
  unfold ProgressPage.pointsEarned.
  cut (∀ acc, 0 ≤ acc → 0 ≤ foldl (λ acc rec,
    match List.find (λ r, bool_decide (rec_id r = rec_id rec)) originalRecs with
    | Some originalRec =>
        if negb (isCompleted originalRec) && isCompleted rec
        then acc + ProgressPage.difficultyPoints (rec_difficulty rec)
        else acc
    | None => acc
    end) acc recs); [intros H; by apply H|].
  induction recs as [|r recs IH]; intros acc Hacc; simpl; [done|].
  apply IH. destruct (List.find _ originalRecs); [|done].
  destruct (negb _ && _); [|done]. destruct (rec_difficulty r); simpl; lia.
Qed.

(** What [handleSaveChanges] does to the points, by the outcome of the
    status upsert and the points accrued. *)
Lemma handleSaveChanges_points w u :
  w_user w = Some u →
  let originalRecs := eval (apiService.recommendations.get (u_id u)) w in
  let earned := ProgressPage.pointsEarned originalRecs (p_recommendations (w_prog w)) in
  let total := u_points u + earned in
  let ok := bool_decide (pointsUpsertOutcome w = None) in
  let w' := exec ProgressPage.handleSaveChanges w in
  if Js.truthy (err_message <$> statusUpsertOutcome w) then
    w_user w' = Some u ∧ w_trace w' = w_trace w
    ∧ t_points (w_db w') = t_points (w_db w)
    ∧ p_message (w_prog w') = "Error saving changes."
  else if 0 <? earned then
    w_user w' = Some (withPoints u total)
    ∧ w_trace w' = w_trace w ++ [EvUpsertPoints (u_id u) total ok; EvSessionPoints total]
    ∧ t_points (w_db w')
      = (if ok then <[u_id u := Some total]> (t_points (w_db w)) else t_points (w_db w))
    ∧ p_message (w_prog w')
      = "Changes saved! You've earned " +:+ pretty earned +:+ " points!"
  else
    w_user w' = Some u ∧ w_trace w' = w_trace w
    ∧ t_points (w_db w') = t_points (w_db w)
    ∧ p_message (w_prog w') = "Your progress has been saved.".
Proof.
  intros Hu. unfold statusUpsertOutcome, pointsUpsertOutcome.
  unfold_handlers. split_world w. simpl in Hu. subst. simpl.
  split_faults fs; simpl;
    repeat match goal with
    | |- context [0 <? ?x] => destruct (0 <? x)
    end; simpl; rewrite <- ?app_assoc; done.
Qed.

Lemma recommendations_get_value userId w :
  eval (apiService.recommendations.get userId) w
  = match Supabase.outcome 0 w with
    | Some _ => []
    | None =>
        let statusMap : gmap Z bool :=
          match Supabase.outcome 1 w with
          | Some _ => ∅
          | None => default ∅ (t_status (w_db w) !! userId)
          end in
        (λ r, toRecommendation r (default false (statusMap !! rr_id r)))
        <$> filter (λ r, rr_user_id r = userId) (t_recs (w_db w))
    end.
Proof.
  unfold_handlers. split_world w. simpl.
  destruct fs as [|[e0|] [|[e1|] fs]]; done.
Qed.

Lemma recommendations_get_ids userId w :
  NoDup (rr_id <$> t_recs (w_db w)) →
  NoDup (rec_id <$> eval (apiService.recommendations.get userId) w).
Proof.
  intros Hnd. rewrite recommendations_get_value.
  destruct (Supabase.outcome 0 w); [constructor|]. simpl.
  rewrite <- list_fmap_compose.
  erewrite (list_fmap_ext _ rr_id); [|intros; reflexivity].
  eapply sublist_NoDup; [exact Hnd|].
  apply fmap_sublist, sublist_filter.
Qed.

Lemma newEvents_app h w evs :
  w_trace (exec h w) = w_trace w ++ evs → newEvents h w = evs.
Proof. unfold newEvents. intros ->. apply drop_app_length. Qed.

Lemma newEvents_nil h w :
  w_trace (exec h w) = w_trace w → newEvents h w = [].
Proof. unfold newEvents. intros ->. by apply drop_all. Qed.

(** C3. When a save goes through, the points [handleSaveChanges] awards
    are the sum of the tariff (Easy 2, Medium 5, Hard 8) over the
    recommendations of the working set that are complete there and
    incomplete in the set read back from the store: that is the value of
    its loop, the session's points grow by exactly that much, and when it
    is positive that total is what is sent to the ledger. A recommendation
    that is not newly completed, whatever else it is, changes nothing to
    the sum. *)
Theorem C3_saveChanges_award w u :
  w_user w = Some u →
  NoDup (rr_id <$> t_recs (w_db w)) →
  statusUpsertOutcome w = None →
  let originalRecs := eval (apiService.recommendations.get (u_id u)) w in
  let working := p_recommendations (w_prog w) in
  let award :=
    sumZ ((λ rec, ProgressPage.difficultyPoints (rec_difficulty rec))
          <$> filter (newlyCompleted originalRecs) working) in
  let w' := exec ProgressPage.handleSaveChanges w in
  ProgressPage.difficultyPoints Easy = 2
  ∧ ProgressPage.difficultyPoints Medium = 5
  ∧ ProgressPage.difficultyPoints Hard = 8
  ∧ ProgressPage.pointsEarned originalRecs working = award
  ∧ sessionPoints w' = Some (u_points u + award)
  ∧ (0 < award →
     newEvents ProgressPage.handleSaveChanges w
     = [EvUpsertPoints (u_id u) (u_points u + award)
          (bool_decide (pointsUpsertOutcome w = None));
        EvSessionPoints (u_points u + award)])
  ∧ (0 < award → pointsUpsertOutcome w = None →
     ledger w' (u_id u) = Some (Some (u_points u + award)))
  ∧ (award = 0 → newEvents ProgressPage.handleSaveChanges w = []
                 ∧ ledger w' (u_id u) = ledger w (u_id u))
  ∧ (∀ recs1 rec recs2,
       ¬ newlyCompleted originalRecs rec →
       ProgressPage.pointsEarned originalRecs (recs1 ++ rec :: recs2)
       = ProgressPage.pointsEarned originalRecs (recs1 ++ recs2)).
Proof.
  intros Hu Hnd Hstatus originalRecs working award w'.
  pose proof (recommendations_get_ids (u_id u) w Hnd) as Hids.
  fold originalRecs in Hids.
  pose proof (pointsEarned_sum originalRecs Hids working) as Hsum.
  fold award in Hsum.
  pose proof (handleSaveChanges_points w u Hu) as Hsave. simpl in Hsave.
  rewrite Hstatus in Hsave. simpl in Hsave.
  fold originalRecs working in Hsave. rewrite Hsum in Hsave. fold w' in Hsave.
  unfold sessionPoints, ledger.
  split; [done|]. split; [done|]. split; [done|]. split; [done|].
  destruct (Z.ltb_spec 0 award) as [Hpos|Hzero];
    destruct Hsave as (Huser & Htrace & Hpoints & _).
  - rewrite Huser, Hpoints. simpl.
    split; [done|]. split; [intros _; by apply newEvents_app|].
    split; [|split; [lia|by apply pointsEarned_untouched]].
    intros _ Hok. rewrite bool_decide_eq_true_2 by done.
    apply lookup_insert_eq.
  - assert (award = 0) as Hz.
    { pose proof (pointsEarned_nonneg originalRecs working). lia. }
    rewrite Huser, Hpoints, Hz, Z.add_0_r. simpl.
    split; [done|]. split; [lia|]. split; [lia|].
    split; [|by apply pointsEarned_untouched].
    intros _. split; [by apply newEvents_nil|done].
Qed.




(** ** The point-earning handlers *)

Lemma handleGameEnd_points w u gameType score :
  w_user w = Some u →
  let total := u_points u + 10 in
  let ok := bool_decide (Supabase.outcome 1 w = None) in
  let w' := exec (DiagnosisPage.handleGameEnd gameType score) w in
  w_user w' = Some (withPoints u total)
  ∧ w_trace w'
    = w_trace w ++ [EvSessionPoints total; EvUpsertPoints (u_id u) total ok;
                    EvAlert ("Game over! Your score: " +:+ pretty score
                             +:+ ". You earned 10 points!")]
  ∧ t_points (w_db w')
    = (if ok then <[u_id u := Some total]> (t_points (w_db w)) else t_points (w_db w)).
Proof.
  intros Hu. unfold_handlers. split_world w. simpl in Hu. subst. simpl.
  destruct fs as [|[e0|] [|[e1|] fs]]; simpl; rewrite <- ?app_assoc; done.
Qed.

(** The row [apiService.metrics.save] inserts for the page's raw fields. *)
Lemma handleMetricsSubmit_points w u :
  w_user w = Some u →
  let total := u_points u + 25 in
  let ok := bool_decide (Supabase.outcome 1 w = None) in
  let w' := exec DiagnosisPage.handleMetricsSubmit w in
  let row :=
    {| dm_created_at := w_now w;
       dm_cols := Obj.spread [("user_id", VStr (u_id u))]
                    (prod_map id VNum
                     <$> Obj.toSnakeCase (DiagnosisPage.metricsToSave (d_metrics (w_diag w)))) |} in
  t_metrics (w_db w')
  = (if bool_decide (Supabase.outcome 0 w = None)
     then t_metrics (w_db w) ++ [row] else t_metrics (w_db w))
  ∧ if Js.truthy (err_message <$> Supabase.outcome 0 w) then
      w_user w' = Some u ∧ w_trace w' = w_trace w
      ∧ t_points (w_db w') = t_points (w_db w)
      ∧ d_submittedToday (w_diag w') = d_submittedToday (w_diag w)
      ∧ d_message (w_diag w')
        = "Error: " +:+ default "" (err_message <$> Supabase.outcome 0 w)
    else
      w_user w' = Some (withPoints u total)
      ∧ w_trace w' = w_trace w ++ [EvSessionPoints total; EvUpsertPoints (u_id u) total ok]
      ∧ t_points (w_db w')
        = (if ok then <[u_id u := Some total]> (t_points (w_db w)) else t_points (w_db w))
      ∧ d_submittedToday (w_diag w') = true
      ∧ d_message (w_diag w') = "Metrics saved successfully! You earned 25 points.".
Proof.
  intros Hu. unfold_handlers. split_world w. simpl in Hu. subst. simpl.
  destruct fs as [|[[[|? ?]]|] [|[e1|] fs]]; simpl; rewrite <- ?app_assoc; done.
Qed.

(** The handlers that earn nothing leave the session's user, the ledger
    and the trace alone. *)
Lemma step_frame a w :
  earns a = false →
  let w' := exec (step a) w in
  w_user w' = w_user w ∧ w_trace w' = w_trace w
  ∧ t_points (w_db w') = t_points (w_db w).
Proof.
  destruct a; try discriminate; intros _; unfold step.
  - unfold_handlers. split_world w. simpl.
    destruct w_user0; [|done]. simpl. by destruct (mjoin (fs !! 0%nat)).
  - done.
  - unfold_handlers. split_world w. simpl.
    destruct w_user0 as [u|]; simpl.
    + destruct fs as [|[e0|] [|[e1|] fs]]; simpl;
        repeat case_match; done.
    + repeat case_match; done.
  - unfold_handlers. split_world w. simpl.
    destruct w_user0 as [u|]; [|done]. simpl.
    destruct fs as [|[e0|] [|[e1|] fs]]; done.
  - unfold_handlers. split_world w. simpl.
    destruct w_user0 as [u|]; [|done]. simpl.
    destruct (p_canGenerate w_prog0); [|done]. simpl.
    destruct (bool_decide (length (Goals.fetchHealthGoalsFromN8n resp) = 0%nat)); [done|].
    simpl. destruct fs as [|[[[|? ?]]|] [|[[[|? ?]]|] fs]]; done.
  - done.
  - done.
Qed.

(** C2, as stated, fails on each of the three handlers: the write to the
    ledger fails, the ledger keeps its 0 points, and the session's points
    have changed all the same. *)
Lemma C2_session_updated_despite_failed_write :
  ¬ sessionFollowsLedger (DiagnosisPage.handleGameEnd Clicker 7) worldGameFail
  ∧ ¬ sessionFollowsLedger DiagnosisPage.handleMetricsSubmit worldMetricsFail
  ∧ ¬ sessionFollowsLedger ProgressPage.handleSaveChanges worldSaveFail.
Proof.
  unfold sessionFollowsLedger. split; [|split]; intros H.
  - assert (newEvents (DiagnosisPage.handleGameEnd Clicker 7) worldGameFail
            = [EvSessionPoints 10; EvUpsertPoints "u1" 10 false;
               EvAlert "Game over! Your score: 7. You earned 10 points!"]) as Hev
      by (by vm_compute).
    rewrite Hev in H.
    assert (sessionPoints (exec (DiagnosisPage.handleGameEnd Clicker 7) worldGameFail)
            ≠ sessionPoints worldGameFail) as Hne by (by vm_compute).
    apply Hne, H. exists "u1", 10. rewrite !elem_of_cons. auto.
  - assert (newEvents DiagnosisPage.handleMetricsSubmit worldMetricsFail
            = [EvSessionPoints 25; EvUpsertPoints "u1" 25 false]) as Hev
      by (by vm_compute).
    rewrite Hev in H.
    assert (sessionPoints (exec DiagnosisPage.handleMetricsSubmit worldMetricsFail)
            ≠ sessionPoints worldMetricsFail) as Hne by (by vm_compute).
    apply Hne, H. exists "u1", 25. rewrite !elem_of_cons. auto.
  - assert (newEvents ProgressPage.handleSaveChanges worldSaveFail
            = [EvUpsertPoints "u1" 8 false; EvSessionPoints 8]) as Hev
      by (by vm_compute).
    rewrite Hev in H.
    assert (sessionPoints (exec ProgressPage.handleSaveChanges worldSaveFail)
            ≠ sessionPoints worldSaveFail) as Hne by (by vm_compute).
    apply Hne, H. exists "u1", 8. rewrite !elem_of_cons. auto.
Qed.

(** C2, amended. Each point-earning handler sets the session's points to
    the new total whether or not the upsert of the ledger succeeds; it
    never looks at the upsert's result. [handleGameEnd] and
    [handleMetricsSubmit] update the session before they issue the upsert,
    [handleSaveChanges] issues the upsert first and then updates the
    session. A failed upsert leaves the ledger as it was. *)
Theorem C2_session_points_set_whatever_the_ledger_write w u :
  w_user w = Some u →
  (∀ gameType score,
     let h := DiagnosisPage.handleGameEnd gameType score in
     let total := u_points u + 10 in
     ∃ ok alert,
       sessionPoints (exec h w) = Some total
       ∧ newEvents h w
         = [EvSessionPoints total; EvUpsertPoints (u_id u) total ok; EvAlert alert]
       ∧ (ok = true ↔ Supabase.outcome 1 w = None)
       ∧ ledger (exec h w) (u_id u)
         = if ok then Some (Some total) else ledger w (u_id u))
  ∧ (Js.truthy (err_message <$> Supabase.outcome 0 w) = false →
     let h := DiagnosisPage.handleMetricsSubmit in
     let total := u_points u + 25 in
     ∃ ok,
       sessionPoints (exec h w) = Some total
       ∧ newEvents h w = [EvSessionPoints total; EvUpsertPoints (u_id u) total ok]
       ∧ (ok = true ↔ Supabase.outcome 1 w = None)
       ∧ ledger (exec h w) (u_id u)
         = if ok then Some (Some total) else ledger w (u_id u))
  ∧ (Js.truthy (err_message <$> statusUpsertOutcome w) = false →
     0 < award SaveChanges w →
     let h := ProgressPage.handleSaveChanges in
     let total := u_points u + award SaveChanges w in
     ∃ ok,
       sessionPoints (exec h w) = Some total
       ∧ newEvents h w = [EvUpsertPoints (u_id u) total ok; EvSessionPoints total]
       ∧ (ok = true ↔ pointsUpsertOutcome w = None)
       ∧ ledger (exec h w) (u_id u)
         = if ok then Some (Some total) else ledger w (u_id u)).
Proof.
  intros Hu. unfold sessionPoints, ledger. split; [|split].
  - intros gameType score.
    destruct (handleGameEnd_points w u gameType score Hu) as (Huser & Htrace & Hpoints).
    eexists _, _. rewrite Huser, Hpoints. split; [done|].
    split; [by apply newEvents_app|]. split; [apply bool_decide_eq_true|].
    case_bool_decide; [apply lookup_insert_eq|done].
  - intros Hsaved.
    destruct (handleMetricsSubmit_points w u Hu) as [_ Hsubmit].
    rewrite Hsaved in Hsubmit.
    destruct Hsubmit as (Huser & Htrace & Hpoints & _).
    eexists. rewrite Huser, Hpoints. split; [done|].
    split; [by apply newEvents_app|]. split; [apply bool_decide_eq_true|].
    case_bool_decide; [apply lookup_insert_eq|done].
  - unfold award. rewrite Hu. intros Hsaved Hpos.
    pose proof (handleSaveChanges_points w u Hu) as Hsave. simpl in Hsave.
    rewrite Hsaved in Hsave.
    rewrite (proj2 (Z.ltb_lt _ _) Hpos) in Hsave.
    destruct Hsave as (Huser & Htrace & Hpoints & _).
    eexists. rewrite Huser, Hpoints. split; [done|].
    split; [by apply newEvents_app|]. split; [apply bool_decide_eq_true|].
    case_bool_decide; [apply lookup_insert_eq|done].
Qed.

(** ** Monotonicity of the points *)

Lemma pointsGrow_same w w' : w_user w' = w_user w → pointsGrow w w'.
Proof. unfold pointsGrow. intros ->. destruct (w_user w); [split; [done|lia]|done]. Qed.

Lemma pointsGrow_trans w1 w2 w3 :
  pointsGrow w1 w2 → pointsGrow w2 w3 → pointsGrow w1 w3.
Proof.
  unfold pointsGrow.
  destruct (w_user w1), (w_user w2), (w_user w3); try done.
  intros [-> ?] [-> ?]. split; [done|lia].
Qed.

(** An earning step either awards nothing, or awards [award a w]: the
    session's points become the old ones plus the award, one upsert of
    that total is sent to the ledger, and the ledger changes only if that
    upsert succeeds. *)
Lemma step_earning a w u :
  earns a = true →
  w_user w = Some u →
  let w' := exec (step a) w in
  let total := u_points u + award a w in
  (w_user w' = Some u ∧ w_trace w' = w_trace w
   ∧ t_points (w_db w') = t_points (w_db w))
  ∨ (0 < award a w
     ∧ w_user w' = Some (withPoints u total)
     ∧ ∃ ok evs,
         w_trace w' = w_trace w ++ evs
         ∧ EvUpsertPoints (u_id u) total ok ∈ evs
         ∧ (∀ userId points ok',
              EvUpsertPoints userId points ok' ∈ evs →
              userId = u_id u ∧ points = total ∧ ok' = ok)
         ∧ t_points (w_db w')
           = if ok then <[u_id u := Some total]> (t_points (w_db w))
             else t_points (w_db w)).
Proof.
  intros Hearns Hu. unfold award. rewrite Hu.
  destruct a; try discriminate; unfold step.
  - destruct (handleGameEnd_points w u gameType score Hu) as (Huser & Htrace & Hpoints).
    right. split; [lia|]. split; [done|].
    eexists _, _. split; [exact Htrace|]. split; [|split; [|exact Hpoints]].
    + rewrite !elem_of_cons. auto.
    + intros ? ? ?. rewrite !elem_of_cons, elem_of_nil.
      intros [?|[?|[?|[]]]]; by simplify_eq.
  - destruct (handleMetricsSubmit_points w u Hu) as [_ Hsubmit].
    destruct (Js.truthy _).
    + left. tauto.
    + destruct Hsubmit as (Huser & Htrace & Hpoints & _).
      right. split; [lia|]. split; [done|].
      eexists _, _. split; [exact Htrace|]. split; [|split; [|exact Hpoints]].
      * rewrite !elem_of_cons. auto.
      * intros ? ? ?. rewrite !elem_of_cons, elem_of_nil.
        intros [?|[?|[]]]; by simplify_eq.
  - pose proof (handleSaveChanges_points w u Hu) as Hsave. simpl in Hsave.
    destruct (Js.truthy _); [left; tauto|].
    destruct (Z.ltb_spec 0 (ProgressPage.pointsEarned
      (eval (apiService.recommendations.get (u_id u)) w)
      (p_recommendations (w_prog w)))) as [Hpos|Hzero].
    + destruct Hsave as (Huser & Htrace & Hpoints & _).
      right. split; [done|]. split; [done|].
      eexists _, _. split; [exact Htrace|]. split; [|split; [|exact Hpoints]].
      * rewrite !elem_of_cons. auto.
      * intros ? ? ?. rewrite !elem_of_cons, elem_of_nil.
        intros [?|[?|[]]]; by simplify_eq.
    + left. tauto.
Qed.

Lemma step_anonymous a w :
  earns a = true → w_user w = None → exec (step a) w = w.
Proof.
  destruct a; try discriminate; intros _ Hu; unfold step; unfold_handlers;
    by rewrite Hu.
Qed.

Lemma step_pointsGrow a w : pointsGrow w (exec (step a) w).
Proof.
  destruct (earns a) eqn:Hearns.
  - destruct (w_user w) as [u|] eqn:Hu.
    + destruct (step_earning a w u Hearns Hu) as [(Huser & _)|(Hpos & Huser & _)];
        unfold pointsGrow; rewrite Hu, Huser; simpl; split; (done || lia).
    + rewrite step_anonymous by done. by apply pointsGrow_same.
  - apply pointsGrow_same. by apply step_frame.
Qed.

Lemma run_pointsGrow acts w : pointsGrow w (run acts w).
Proof.
  revert w. induction acts as [|a acts IH]; intros w.
  - by apply pointsGrow_same.
  - simpl. eapply pointsGrow_trans; [apply step_pointsGrow|apply IH].
Qed.

(** The gateway calls of sign-up, of the profile page and of the sign-in
    page: the first creates the ledger row of a new user with 0 points and
    never touches a row that exists, the others do not write the ledger. *)
Lemma saveInitialDetails_ledger userData healthData w userId :
  let w' := exec (apiService.user.saveInitialDetails userData healthData) w in
  ledger w' userId = ledger w userId
  ∨ (userId = nu_id userData ∧ ledger w userId = None
     ∧ ledger w' userId = Some (Some 0)).
Proof.
  unfold ledger. unfold_handlers. unfold Supabase.insertUnique.
  split_world w. simpl.
  destruct fs as [|[e0|] [|[e1|] [|[e2|] fs]]]; simpl;
    destruct (t_users db !! nu_id userData); simpl; auto;
    destruct (t_health db !! nu_id userData); simpl; auto;
    destruct (t_points db !! nu_id userData) eqn:Hrow; simpl; auto;
    (destruct (decide (userId = nu_id userData)) as [->|Hne];
      [right; by rewrite lookup_insert_eq
      |left; by rewrite lookup_insert_ne]).
Qed.

Lemma updateDetails_ledger userId updates w :
  t_points (w_db (exec (apiService.user.updateDetails userId updates) w))
  = t_points (w_db w).
Proof.
  unfold_handlers. split_world w. simpl.
  destruct (Js.truthy (up_password updates)); simpl;
    destruct fs as [|[e0|] [|[e1|] fs]]; simpl; try done;
    by destruct (t_users db !! userId).
Qed.

Lemma handleOtpVerification_ledger w :
  t_points (w_db (exec AuthPage.handleOtpVerification w)) = t_points (w_db w).
Proof.
  unfold_handlers. split_world w. simpl.
  destruct (bool_decide (Some (a_otp w_auth0) = w_otpCache0 !! a_email w_auth0)
            || bool_decide (a_otp w_auth0 = "123456")); simpl; [|done].
  destruct w_authSession0 as [sessionUserId|]; simpl; [|done].
  destruct fs as [|[[[|? ?]]|] [|[e1|] [|[e2|] fs]]]; simpl; try done;
    destruct (t_users db !! sessionUserId); simpl; try done;
    destruct (t_health db !! sessionUserId); simpl; try done;
    by destruct (t_points db !! sessionUserId) as [[?|]|].
Qed.

(** The handlers of [DiagnosisPage] are the two halves of [InFlight] run
    back to back. *)
Lemma handleGameEnd_in_flight gameType score w :
  DiagnosisPage.handleGameEnd gameType score w
  = InFlight.handleGameEnd gameType score w.
Proof.
  unfold DiagnosisPage.handleGameEnd, InFlight.handleGameEnd,
    InFlight.handleGameEnd_begin, InFlight.handleGameEnd_resume, bind, ret, get.
  destruct (w_user w) as [user|]; [|reflexivity].
  destruct (apiService.games.saveSession _ _ _ _) as [r w1]. reflexivity.
Qed.

Lemma handleMetricsSubmit_in_flight w :
  DiagnosisPage.handleMetricsSubmit w = InFlight.handleMetricsSubmit w.
Proof.
  unfold DiagnosisPage.handleMetricsSubmit, InFlight.handleMetricsSubmit,
    InFlight.handleMetricsSubmit_begin, InFlight.handleMetricsSubmit_resume,
    DiagnosisPage.setLoading, DiagnosisPage.setMessage, bind, ret, get, modify.
  destruct (w_user w) as [user|]; [|reflexivity].
  destruct (apiService.metrics.save _ _ _) as [error w1]. reflexivity.
Qed.

(** C9, as stated, fails in two ways. A sign-in starts the session from
    the ledger read, which gives 0 when it fails: Alice's 500 points are
    shown as 0, and her next game end writes 10 over them. And two
    handlers in flight at once both add to the points they held when they
    were called: the metrics submission sets 25, and the game end that
    resumes after it sets 10, in the session and in the ledger. *)
Lemma C9_points_can_decrease :
  (ledger worldSignIn "u1" = Some (Some 500)
   ∧ sessionPoints (runOps (take 1 signInThenPlay) worldSignIn) = Some 0
   ∧ ledger (runOps (take 1 signInThenPlay) worldSignIn) "u1" = Some (Some 500)
   ∧ sessionPoints (runOps signInThenPlay worldSignIn) = Some 10
   ∧ ledger (runOps signInThenPlay worldSignIn) "u1" = Some (Some 10)
   ∧ ¬ pointsNeverDecrease signInThenPlay worldSignIn)
  ∧ (eval InFlight.handleMetricsSubmit_begin worldMetrics = Some (alice, None)
     ∧ eval (InFlight.handleGameEnd_begin Clicker 7)
         (runOps (take 1 submitWhilePlaying) worldMetrics) = Some alice
     ∧ sessionPoints (runOps (take 3 submitWhilePlaying) worldMetrics) = Some 25
     ∧ sessionPoints (runOps submitWhilePlaying worldMetrics) = Some 10
     ∧ ledger (runOps submitWhilePlaying worldMetrics) "u1" = Some (Some 10)
     ∧ ¬ pointsNeverDecrease submitWhilePlaying worldMetrics).
Proof.
  assert (ledger (runOps (take 1 signInThenPlay) worldSignIn) "u1" = Some (Some 500))
    as Hbefore by (vm_compute; reflexivity).
  assert (ledger (runOps (take 2 signInThenPlay) worldSignIn) "u1" = Some (Some 10))
    as Hafter by (vm_compute; reflexivity).
  assert (sessionPoints (runOps (take 3 submitWhilePlaying) worldMetrics) = Some 25)
    as Hthen by (vm_compute; reflexivity).
  assert (sessionPoints (runOps (take 4 submitWhilePlaying) worldMetrics) = Some 10)
    as Hnow by (vm_compute; reflexivity).
  split.
  - split; [vm_compute; reflexivity|]. split; [vm_compute; reflexivity|].
    split; [exact Hbefore|]. split; [vm_compute; reflexivity|].
    split; [exact Hafter|].
    intros Hclaim. destruct (Hclaim 1%nat) as [Hledger _].
    specialize (Hledger "u1" 500 10 Hbefore Hafter). lia.
  - split; [vm_compute; reflexivity|]. split; [vm_compute; reflexivity|].
    split; [exact Hthen|]. split; [exact Hnow|].
    split; [vm_compute; reflexivity|].
    intros Hclaim. destruct (Hclaim 3%nat) as [_ Hsession].
    specialize (Hsession 25 10 Hthen Hnow). lia.
Qed.

(** C9, corrected. While a user stays signed in and the handlers run one
    at a time, each to its end, the points of the session never decrease.
    A step writes to the ledger only when it is a game end, a metrics
    submission or a save of goals, and what it writes is the session's
    previous points plus the award of that step (10, 25, or the tariff
    accrued), which is not negative; every other step leaves the session's
    points and the ledger as they were; and the ledger changes only by
    such a write. Outside the session, sign-up creates the ledger row of a
    new user with 0 points and changes no row that exists, and neither
    the update of a profile nor the verification of a passcode writes to
    the ledger. *)
Theorem C9_points_never_decrease :
  (∀ a w, pointsGrow w (exec (step a) w))
  ∧ (∀ acts w, pointsGrow w (run acts w))
  ∧ (∀ a w userId points ok,
       EvUpsertPoints userId points ok ∈ newEvents (step a) w →
       earns a = true
       ∧ ∃ u, w_user w = Some u ∧ userId = u_id u
              ∧ points = u_points u + award a w ∧ u_points u ≤ points)
  ∧ (∀ a w,
       earns a = false →
       sessionPoints (exec (step a) w) = sessionPoints w
       ∧ t_points (w_db (exec (step a) w)) = t_points (w_db w))
  ∧ (∀ a w userId,
       ledger (exec (step a) w) userId ≠ ledger w userId →
       ∃ points,
         EvUpsertPoints userId points true ∈ newEvents (step a) w
         ∧ ledger (exec (step a) w) userId = Some (Some points))
  ∧ (∀ userData healthData w userId,
       let w' := exec (apiService.user.saveInitialDetails userData healthData) w in
       ledger w' userId = ledger w userId
       ∨ (userId = nu_id userData ∧ ledger w userId = None
          ∧ ledger w' userId = Some (Some 0)))
  ∧ (∀ userId updates w,
       t_points (w_db (exec (apiService.user.updateDetails userId updates) w))
       = t_points (w_db w))
  ∧ (∀ w, t_points (w_db (exec AuthPage.handleOtpVerification w))
          = t_points (w_db w)).
Proof.
  split; [apply step_pointsGrow|]. split; [apply run_pointsGrow|].
  split; [|split; [|split; [|split; [apply saveInitialDetails_ledger|
    split; [apply updateDetails_ledger|apply handleOtpVerification_ledger]]]]].
  - intros a w userId points ok Hev.
    destruct (earns a) eqn:Hearns.
    + split; [done|].
      destruct (w_user w) as [u|] eqn:Hu.
      * destruct (step_earning a w u Hearns Hu)
          as [(_ & Htrace & _)|(Hpos & _ & ok' & evs & Htrace & _ & Honly & _)].
        -- rewrite (newEvents_nil _ _ Htrace) in Hev. by apply elem_of_nil in Hev.
        -- rewrite (newEvents_app _ _ _ Htrace) in Hev.
           destruct (Honly _ _ _ Hev) as (-> & -> & _).
           exists u. repeat split; try done. lia.
      * unfold newEvents in Hev. rewrite step_anonymous in Hev by done.
        rewrite drop_all in Hev. by apply elem_of_nil in Hev.
    + destruct (step_frame a w Hearns) as (_ & Htrace & _).
      rewrite (newEvents_nil _ _ Htrace) in Hev. by apply elem_of_nil in Hev.
  - intros a w Hearns. destruct (step_frame a w Hearns) as (Huser & _ & Hpoints).
    unfold sessionPoints. by rewrite Huser.
  - intros a w userId Hchanged. unfold ledger in *.
    destruct (earns a) eqn:Hearns.
    + destruct (w_user w) as [u|] eqn:Hu.
      * destruct (step_earning a w u Hearns Hu)
          as [(_ & _ & Hpoints)|(_ & _ & ok & evs & Htrace & Hin & _ & Hpoints)].
        -- by rewrite Hpoints in Hchanged.
        -- rewrite Hpoints in *. destruct ok; [|done].
           destruct (decide (u_id u = userId)) as [<-|Hne].
           ++ eexists. rewrite (newEvents_app _ _ _ Htrace).
              split; [exact Hin|]. apply lookup_insert_eq.
           ++ by rewrite lookup_insert_ne in Hchanged.
      * by rewrite step_anonymous in Hchanged.
    + destruct (step_frame a w Hearns) as (_ & _ & Hpoints).
      by rewrite Hpoints in Hchanged.
Qed.

(** ** Submitting the daily metrics *)

Lemma obj_get_set_eq {V} key (v : V) o : Obj.get key (Obj.set key v o) = Some v.
Proof.
  induction o as [|[k' v'] o IH]; simpl.
  - by rewrite bool_decide_eq_true_2.
  - case_bool_decide as Hk; simpl.
    + by rewrite bool_decide_eq_true_2.
    + by rewrite bool_decide_eq_false_2.
Qed.

Lemma obj_get_set_ne {V} key key' (v : V) o :
  key' ≠ key → Obj.get key (Obj.set key' v o) = Obj.get key o.
Proof.
  intros Hne. induction o as [|[k' v'] o IH]; simpl.
  - by rewrite bool_decide_eq_false_2.
  - case_bool_decide as Hk; simpl.
    + subst k'. by rewrite !bool_decide_eq_false_2.
    + by rewrite IH.
Qed.

Lemma obj_get_None {V} key (o : JsObject V) : key ∉ Obj.keys o → Obj.get key o = None.
Proof.
  unfold Obj.keys. induction o as [|[k' v'] o IH]; simpl; [done|].
  rewrite not_elem_of_cons. intros [Hne Hnot].
  rewrite bool_decide_eq_false_2 by done. by apply IH.
Qed.

(** The [reduce] of [handleMetricsSubmit], from any accumulator. *)
Lemma metricsToSave_loop key metrics acc :
  NoDup (Obj.keys metrics) →
  Obj.get key (foldl (λ acc kv,
    if negb (bool_decide (Js.trim kv.2 = ""))
    then
      let numValue := Num.parseFloat kv.2 in
      if negb (Num.isNaN numValue) then Obj.set kv.1 numValue acc else acc
    else acc) acc metrics)
  = match Obj.get key metrics with
    | Some raw =>
        if bool_decide (Js.trim raw = "") || Num.isNaN (Num.parseFloat raw)
        then Obj.get key acc
        else Some (Num.parseFloat raw)
    | None => Obj.get key acc
    end.
Proof.
  unfold Obj.keys. revert acc.
  induction metrics as [|[k raw] metrics IH]; intros acc Hnd; [done|].
  rewrite fmap_cons in Hnd. apply NoDup_cons in Hnd as [Hfresh Hnd].
  simpl in Hfresh. simpl. rewrite IH by done.
  destruct (decide (k = key)) as [->|Hk].
  - rewrite (bool_decide_eq_true_2 (key = key)) by done.
    rewrite (obj_get_None _ metrics) by done.
    destruct (bool_decide (Js.trim raw = "")); simpl; [done|].
    destruct (Num.isNaN (Num.parseFloat raw)); simpl; [done|].
    apply obj_get_set_eq.
  - rewrite (bool_decide_eq_false_2 (k = key)) by done.
    assert (Obj.get key (if negb (bool_decide (Js.trim raw = ""))
                         then if negb (Num.isNaN (Num.parseFloat raw))
                              then Obj.set k (Num.parseFloat raw) acc else acc
                         else acc) = Obj.get key acc) as ->; [|done].
    destruct (bool_decide (Js.trim raw = "")); simpl; [done|].
    destruct (Num.isNaN (Num.parseFloat raw)); simpl; [done|].
    by apply obj_get_set_ne.
Qed.

Lemma metricsToSave_get key metrics :
  NoDup (Obj.keys metrics) →
  Obj.get key (DiagnosisPage.metricsToSave metrics)
  = match Obj.get key metrics with
    | Some raw =>
        if bool_decide (Js.trim raw = "") || Num.isNaN (Num.parseFloat raw)
        then None
        else Some (Num.parseFloat raw)
    | None => None
    end.
Proof.
  intros Hnd. unfold DiagnosisPage.metricsToSave.
  by rewrite metricsToSave_loop.
Qed.

(** C8. [handleMetricsSubmit] reads each raw field with [parseFloat] and
    keeps a field exactly when it is not blank and reads as a number, with
    the number read as its value; every other field is absent from what is
    saved, not stored as a placeholder. Whatever the fields hold, the
    record is inserted when the gateway accepts it, and the submit then
    awards 25 points: the session shows the old points plus 25, that total
    is what reaches the ledger when its upsert goes through, the day is
    marked as submitted and the success message is shown. *)
Theorem C8_metrics_submit w u :
  w_user w = Some u →
  NoDup (Obj.keys (d_metrics (w_diag w))) →
  Supabase.outcome 0 w = None →
  let metrics := d_metrics (w_diag w) in
  let saved := DiagnosisPage.metricsToSave metrics in
  let w' := exec DiagnosisPage.handleMetricsSubmit w in
  (∀ key,
     Obj.get key saved
     = match Obj.get key metrics with
       | Some raw =>
           if bool_decide (Js.trim raw = "") || Num.isNaN (Num.parseFloat raw)
           then None
           else Some (Num.parseFloat raw)
       | None => None
       end)
  ∧ (∀ key n, Obj.get key saved = Some n → Num.isNaN n = false)
  ∧ t_metrics (w_db w')
    = t_metrics (w_db w)
      ++ [{| dm_created_at := w_now w;
             dm_cols := Obj.spread [("user_id", VStr (u_id u))]
                          (prod_map id VNum <$> Obj.toSnakeCase saved) |}]
  ∧ sessionPoints w' = Some (u_points u + 25)
  ∧ (Supabase.outcome 1 w = None →
     ledger w' (u_id u) = Some (Some (u_points u + 25)))
  ∧ d_submittedToday (w_diag w') = true
  ∧ d_message (w_diag w') = "Metrics saved successfully! You earned 25 points.".
Proof.
  intros Hu Hnd Hins metrics saved w'.
  destruct (handleMetricsSubmit_points w u Hu) as [Hrows Hsubmit].
  rewrite Hins in Hrows, Hsubmit. simpl in Hrows, Hsubmit.
  destruct Hsubmit as (Huser & _ & Hpoints & Hday & Hmessage).
  fold w' in Hrows, Huser, Hpoints, Hday, Hmessage.
  split; [intros key; by apply metricsToSave_get|].
  split.
  { intros key n. unfold saved. rewrite metricsToSave_get by done.
    destruct (Obj.get key metrics) as [raw|]; [|done].
    destruct (bool_decide (Js.trim raw = "")); simpl; [done|].
    destruct (Num.isNaN (Num.parseFloat raw)) eqn:Hnan; [done|]. by intros [= <-]. }
  split; [exact Hrows|].
  unfold sessionPoints, ledger. rewrite Huser, Hpoints.
  split; [done|]. split; [|done].
  intros ->. simpl. apply lookup_insert_eq.
Qed.

(** ** Generating goals *)

Lemma goalsToInsert_spec userId next newGoals r :
  r ∈ apiService.recommendations.goalsToInsert userId next newGoals →
  rr_user_id r = userId ∧ next ≤ rr_id r < next + Z.of_nat (length newGoals).
Proof.
  revert next. induction newGoals as [|g gs IH]; intros next.
  - by intros ?%elem_of_nil.
  - change (length (g :: gs)) with (S (length gs)). rewrite Nat2Z.inj_succ.
    cbn [apiService.recommendations.goalsToInsert].
    rewrite elem_of_cons. intros [->|Hin]; [split; [done|cbn [rr_id]; lia]|].
    apply IH in Hin as [Huser Hid]. split; [done|lia].
Qed.

Lemma filter_inserted_rows userId next newGoals :
  filter (λ r, rr_user_id r = userId)
    (apiService.recommendations.goalsToInsert userId next newGoals)
  = apiService.recommendations.goalsToInsert userId next newGoals.
Proof.
  revert next. induction newGoals as [|g gs IH]; intros next; simpl; [done|].
  rewrite filter_cons. simpl.
  destruct (decide (userId = userId)); [|done]. by rewrite IH.
Qed.

Lemma filter_own_rows userId next newGoals (old : list RecRow) :
  filter (λ r, rr_user_id r = userId)
    (filter (λ r, rr_user_id r ≠ userId) old
     ++ apiService.recommendations.goalsToInsert userId next newGoals)
  = apiService.recommendations.goalsToInsert userId next newGoals.
Proof.
  rewrite filter_app, filter_inserted_rows.
  assert (filter (λ r, rr_user_id r = userId)
            (filter (λ r, rr_user_id r ≠ userId) old) = []) as ->; [|done].
  induction old as [|r old IH]; [done|].
  rewrite (filter_cons (λ r, rr_user_id r ≠ userId)).
  destruct (decide (rr_user_id r ≠ userId)); [|done].
  rewrite filter_cons. by destruct (decide (rr_user_id r = userId)).
Qed.

Lemma filter_other_rows userId next newGoals (old : list RecRow) :
  filter (λ r, rr_user_id r ≠ userId)
    (filter (λ r, rr_user_id r ≠ userId) old
     ++ apiService.recommendations.goalsToInsert userId next newGoals)
  = filter (λ r, rr_user_id r ≠ userId) old.
Proof.
  rewrite filter_app.
  assert (filter (λ r, rr_user_id r ≠ userId)
            (apiService.recommendations.goalsToInsert userId next newGoals) = [])
    as ->.
  { apply elem_of_nil_inv. intros r [Hne Hin]%list_elem_of_filter.
    by apply goalsToInsert_spec in Hin as [Huser _]. }
  rewrite app_nil_r.
  induction old as [|r old IH]; [done|].
  rewrite (filter_cons _ r old).
  destruct (decide (rr_user_id r ≠ userId)) as [Hne|Heq]; [|done].
  rewrite filter_cons, IH. by destruct (decide (rr_user_id r ≠ userId)).
Qed.

Lemma goalsToInsert_length userId next newGoals :
  length (apiService.recommendations.goalsToInsert userId next newGoals)
  = length newGoals.
Proof.
  revert next. induction newGoals as [|g gs IH]; intros next; simpl; [done|].
  by rewrite IH.
Qed.

(** What a generation that goes through does to the store and the page. *)
Lemma handleGenerateGoals_ok w u resp :
  w_user w = Some u →
  p_canGenerate (w_prog w) = true →
  Goals.fetchHealthGoalsFromN8n resp ≠ [] →
  Supabase.outcome 0 w = None →
  Supabase.outcome 1 w = None →
  let newGoals := Goals.fetchHealthGoalsFromN8n resp in
  let rows :=
    apiService.recommendations.goalsToInsert (u_id u) (t_rec_seq (w_db w)) newGoals in
  let w' := exec (ProgressPage.handleGenerateGoals resp) w in
  t_recs (w_db w') = filter (λ r, rr_user_id r ≠ u_id u) (t_recs (w_db w)) ++ rows
  ∧ t_rec_seq (w_db w') = t_rec_seq (w_db w) + Z.of_nat (length newGoals)
  ∧ t_status (w_db w') = t_status (w_db w)
  ∧ p_recommendations (w_prog w') = (λ r, toRecommendation r false) <$> rows
  ∧ p_canGenerate (w_prog w') = false
  ∧ w_lastGoalGen w' = <[u_id u := w_now w]> (w_lastGoalGen w)
  ∧ p_message (w_prog w') = "New goals have been generated!".
Proof.
  intros Hu Hcan Hgoals H0 H1. unfold_handlers. split_world w.
  simpl in *. subst. simpl. rewrite Hcan. simpl.
  destruct (Goals.fetchHealthGoalsFromN8n resp) as [|g gs] eqn:Hfetch; [done|].
  simpl. destruct fs as [|[e0|] [|[e1|] fs]]; simpl in *; try discriminate; done.
Qed.

(** C5. A generation that goes through replaces the user's
    recommendations: the store first deletes all the rows of the user and
    then inserts one row per parsed goal, nothing of the old set is kept
    and the rows of other users are untouched. With the identity sequence
    ahead of every id in use, the ids of the user after the generation are
    disjoint from the ids the user had before. Every new recommendation is
    returned as incomplete, has no completion-status row, and reads back
    as incomplete. *)
Theorem C5_generate_replaces_recommendations w u resp :
  w_user w = Some u →
  p_canGenerate (w_prog w) = true →
  seqAhead (w_db w) →
  Goals.fetchHealthGoalsFromN8n resp ≠ [] →
  Supabase.outcome 0 w = None →
  Supabase.outcome 1 w = None →
  let newGoals := Goals.fetchHealthGoalsFromN8n resp in
  let rows :=
    apiService.recommendations.goalsToInsert (u_id u) (t_rec_seq (w_db w)) newGoals in
  let w' := exec (ProgressPage.handleGenerateGoals resp) w in
  filter (λ r, rr_user_id r = u_id u) (t_recs (w_db w')) = rows
  ∧ filter (λ r, rr_user_id r ≠ u_id u) (t_recs (w_db w'))
    = filter (λ r, rr_user_id r ≠ u_id u) (t_recs (w_db w))
  ∧ length rows = length newGoals
  ∧ (∀ id, id ∈ recIds (w_db w') (u_id u) → id ∉ recIds (w_db w) (u_id u))
  ∧ p_recommendations (w_prog w') = (λ r, toRecommendation r false) <$> rows
  ∧ rec_id <$> p_recommendations (w_prog w') = recIds (w_db w') (u_id u)
  ∧ Forall (λ rec, isCompleted rec = false) (p_recommendations (w_prog w'))
  ∧ (∀ id, id ∈ recIds (w_db w') (u_id u) →
       default ∅ (t_status (w_db w') !! u_id u) !! id = None)
  ∧ Forall (λ rec, isCompleted rec = false)
      (eval (apiService.recommendations.get (u_id u)) w')
  ∧ seqAhead (w_db w').
Proof.
  intros Hu Hcan [Hrecs Hstatus] Hgoals H0 H1 newGoals rows w'.
  destruct (handleGenerateGoals_ok w u resp Hu Hcan Hgoals H0 H1)
    as (Hrows & Hseq & Hst & Hpage & _).
  fold newGoals rows w' in Hrows, Hseq, Hst, Hpage.
  assert (filter (λ r, rr_user_id r = u_id u) (t_recs (w_db w')) = rows) as Hown.
  { rewrite Hrows. apply filter_own_rows. }
  assert (∀ id, id ∈ recIds (w_db w') (u_id u) → t_rec_seq (w_db w) ≤ id) as Hnew.
  { intros id. unfold recIds. rewrite Hown.
    intros (r & -> & Hin)%list_elem_of_fmap.
    apply goalsToInsert_spec in Hin. lia. }
  assert (∀ id, id ∈ recIds (w_db w') (u_id u) →
            default ∅ (t_status (w_db w') !! u_id u) !! id = None) as Habsent.
  { intros id Hid. apply Hnew in Hid. rewrite Hst.
    destruct (t_status (w_db w) !! u_id u) as [m|] eqn:Hm; simpl; [|done].
    destruct (m !! id) as [b|] eqn:Hmid; [|done].
    assert (id < t_rec_seq (w_db w)); [|lia].
    by apply (Hstatus _ _ Hm id b). }
  assert (Forall (λ rec, isCompleted rec = false)
            ((λ r, toRecommendation r false) <$> rows)) as Hfresh.
  { apply Forall_fmap, Forall_forall. by intros r _. }
  split; [done|]. split; [rewrite Hrows; apply filter_other_rows|].
  split; [apply goalsToInsert_length|].
  split.
  { intros id Hid Hold. apply Hnew in Hid.
    unfold recIds in Hold.
    apply list_elem_of_fmap in Hold as (r & -> & Hin).
    apply list_elem_of_filter in Hin as [_ Hin].
    pose proof (proj1 (Forall_forall _ _) Hrecs r Hin) as Hlt. simpl in Hlt. lia. }
  split; [done|]. split.
  { unfold recIds. rewrite Hpage, Hown, <- list_fmap_compose.
    by apply list_fmap_ext. }
  split; [by rewrite Hpage|]. split; [done|].
  split.
  { rewrite recommendations_get_value.
    destruct (Supabase.outcome 0 w'); [constructor|]. simpl.
    apply Forall_fmap, Forall_forall. intros r Hin. simpl.
    destruct (Supabase.outcome 1 w'); [done|].
    rewrite Habsent; [done|].
    unfold recIds. apply list_elem_of_fmap. by exists r. }
  split.
  - apply Forall_forall. intros r. rewrite Hrows, Hseq, elem_of_app.
    intros [Hin|Hin].
    + apply list_elem_of_filter in Hin as [_ Hin].
      pose proof (proj1 (Forall_forall _ _) Hrecs r Hin) as Hlt. simpl in Hlt. lia.
    + apply goalsToInsert_spec in Hin. lia.
  - rewrite Hst, Hseq. intros userId m Hm id b Hid.
    pose proof (Hstatus userId m Hm id b Hid) as Hlt. simpl in Hlt. lia.
Qed.

(* ===================================================================== *)
(** * The properties on the sample worlds                                 *)
(* ===================================================================== *)

(** The failed game end of [worldGameFail]: the upsert fails, the ledger
    keeps 0 and the session shows 10. *)
Lemma C2_witness :
  w_user worldGameFail = Some alice
  ∧ ∃ ok alert,
      sessionPoints (exec (DiagnosisPage.handleGameEnd Clicker 7) worldGameFail)
      = Some (u_points alice + 10)
      ∧ newEvents (DiagnosisPage.handleGameEnd Clicker 7) worldGameFail
        = [EvSessionPoints (u_points alice + 10);
           EvUpsertPoints (u_id alice) (u_points alice + 10) ok; EvAlert alert]
      ∧ (ok = true ↔ Supabase.outcome 1 worldGameFail = None)
      ∧ ledger (exec (DiagnosisPage.handleGameEnd Clicker 7) worldGameFail) (u_id alice)
        = if ok then Some (Some (u_points alice + 10))
          else ledger worldGameFail (u_id alice).
Proof.
  split; [reflexivity|].
  exact (proj1 (C2_session_points_set_whatever_the_ledger_write
                  worldGameFail alice eq_refl) Clicker 7).
Defined.

(** The spec's scenario: an Easy goal that was already complete and a Hard
    one newly completed award exactly 8 points. *)
Lemma C3_witness :
  w_user worldGoals = Some alice
  ∧ NoDup (rr_id <$> t_recs (w_db worldGoals))
  ∧ statusUpsertOutcome worldGoals = None
  ∧ ProgressPage.pointsEarned
      (eval (apiService.recommendations.get "u1") worldGoals)
      (p_recommendations (w_prog worldGoals)) = 8
  ∧ sessionPoints (exec ProgressPage.handleSaveChanges worldGoals) = Some 8.
Proof.
  assert (NoDup (rr_id <$> t_recs (w_db worldGoals))) as Hnd
    by compute_done.
  split; [reflexivity|]. split; [exact Hnd|]. split; [reflexivity|].
  destruct (C3_saveChanges_award worldGoals alice eq_refl Hnd eq_refl)
    as (_ & _ & _ & Hloop & Hsession & _).
  split; [exact Hloop|exact Hsession].
Defined.


(** Alice, who has goals 1 and 2, generates new ones: she gets two goals,
    numbered 3 and 4. *)
Lemma C5_witness :
  w_user worldGoals = Some alice
  ∧ p_canGenerate (w_prog worldGoals) = true
  ∧ seqAhead (w_db worldGoals)
  ∧ Goals.fetchHealthGoalsFromN8n goodBatch ≠ []
  ∧ recIds (w_db worldGoals) "u1" = [1; 2]
  ∧ recIds (w_db (exec (ProgressPage.handleGenerateGoals goodBatch) worldGoals)) "u1"
    = [3; 4]
  ∧ (∀ id,
       id ∈ recIds (w_db (exec (ProgressPage.handleGenerateGoals goodBatch) worldGoals)) "u1" →
       id ∉ recIds (w_db worldGoals) "u1")
  ∧ Forall (λ rec, isCompleted rec = false)
      (p_recommendations
         (w_prog (exec (ProgressPage.handleGenerateGoals goodBatch) worldGoals))).
Proof.
  assert (seqAhead (w_db worldGoals)) as Hseq
    by compute_done.
  assert (Goals.fetchHealthGoalsFromN8n goodBatch ≠ []) as Hgoals
    by (vm_compute; discriminate).
  split; [reflexivity|]. split; [reflexivity|]. split; [exact Hseq|].
  split; [exact Hgoals|]. split; [vm_compute; reflexivity|].
  split; [vm_compute; reflexivity|].
  destruct (C5_generate_replaces_recommendations worldGoals alice goodBatch
              eq_refl eq_refl Hseq Hgoals eq_refl eq_refl)
    as (_ & _ & _ & Hdisjoint & _ & _ & Hfresh & _).
  split; [exact Hdisjoint|exact Hfresh].
Defined.

(** The spec's batch of malformed lines: nothing is parsed, nothing is
    written. *)
Lemma C6_witness :
  Goals.fetchHealthGoalsFromN8n badBatch = []
  ∧ w_db (exec (ProgressPage.handleGenerateGoals badBatch) world0) = w_db world0
  ∧ w_faults (exec (ProgressPage.handleGenerateGoals badBatch) world0) = w_faults world0
  ∧ p_message (w_prog (exec (ProgressPage.handleGenerateGoals badBatch) world0))
    = "Could not generate new goals from the service. Please try again later.".
Proof.
  assert (Goals.fetchHealthGoalsFromN8n badBatch = []) as Hnone
    by (vm_compute; reflexivity).
  split; [exact Hnone|].
  destruct (proj2 (proj2 (proj2 (proj2 C6_malformed_goal_lines)))
              badBatch world0 Hnone) as (Hdb & Hfaults & _ & _ & Hmessage).
  split; [exact Hdb|]. split; [exact Hfaults|].
  apply Hmessage; [by eexists|reflexivity].
Defined.

(** Alice types a code that is neither her challenge nor the development
    code. *)
Lemma C7_witness :
  a_email (w_auth worldOtp) = "alice@example.org"
  ∧ a_otp (w_auth worldOtp) = "000000"
  ∧ w_otpCache worldOtp !! "alice@example.org" = Some "482913"
  ∧ eval (verifyOtp "alice@example.org" "000000") worldOtp = false
  ∧ w_authSession worldOtp = Some "u1"
  ∧ w_authSession (exec AuthPage.handleOtpVerification worldOtp) = None
  ∧ w_user (exec AuthPage.handleOtpVerification worldOtp) = None
  ∧ a_error (w_auth (exec AuthPage.handleOtpVerification worldOtp)) = "Invalid OTP.".
Proof.
  assert (eval (verifyOtp "alice@example.org" "000000") worldOtp = false) as Hbad
    by (vm_compute; reflexivity).
  split; [reflexivity|]. split; [reflexivity|].
  split; [vm_compute; reflexivity|]. split; [exact Hbad|].
  split; [reflexivity|].
  destruct (proj2 (proj2 (proj2 (C7_verifyOtp "alice@example.org" "000000" worldOtp)))
              eq_refl eq_refl Hbad) as (Hsession & Huser & _ & _ & _ & Herror).
  split; [exact Hsession|]. split; [exact Huser|exact Herror].
Defined.

(** The spec's scenario: heart rate 72 and no steps; the record holds the
    heart rate only and Alice ends with 25 points. *)
Lemma C8_witness :
  w_user worldMetrics = Some alice
  ∧ NoDup (Obj.keys (d_metrics (w_diag worldMetrics)))
  ∧ Supabase.outcome 0 worldMetrics = None
  ∧ d_metrics (w_diag worldMetrics) = [("heartRate", "72"); ("steps", "")]
  ∧ DiagnosisPage.metricsToSave (d_metrics (w_diag worldMetrics))
    = [("heartRate", Num.Dec false 72 0)]
  ∧ t_metrics (w_db (exec DiagnosisPage.handleMetricsSubmit worldMetrics))
    = [{| dm_created_at := noon;
          dm_cols := [("user_id", VStr "u1");
                      ("heart_rate", VNum (Num.Dec false 72 0))] |}]
  ∧ sessionPoints (exec DiagnosisPage.handleMetricsSubmit worldMetrics) = Some 25
  ∧ ledger (exec DiagnosisPage.handleMetricsSubmit worldMetrics) "u1" = Some (Some 25).
Proof.
  assert (NoDup (Obj.keys (d_metrics (w_diag worldMetrics)))) as Hnd
    by compute_done.
  split; [reflexivity|]. split; [exact Hnd|]. split; [reflexivity|].
  split; [vm_compute; reflexivity|]. split; [vm_compute; reflexivity|].
  destruct (C8_metrics_submit worldMetrics alice eq_refl Hnd eq_refl)
    as (_ & _ & Hrows & Hsession & Hledger & _).
  split; [exact Hrows|]. split; [exact Hsession|exact (Hledger eq_refl)].
Defined.

(** A game end in [world0] writes 10 = 0 + 10 to the ledger. *)
Lemma C9_witness :
  EvUpsertPoints "u1" 10 true ∈ newEvents (step (GameEnd Clicker 7)) world0
  ∧ earns (GameEnd Clicker 7) = true
  ∧ ∃ u, w_user world0 = Some u ∧ "u1" = u_id u
         ∧ 10 = u_points u + award (GameEnd Clicker 7) world0 ∧ u_points u ≤ 10.
Proof.
  assert (EvUpsertPoints "u1" 10 true ∈ newEvents (step (GameEnd Clicker 7)) world0)
    as Hev by compute_done.
  split; [exact Hev|].
  exact (proj1 (proj2 (proj2 C9_points_never_decrease))
           (GameEnd Clicker 7) world0 "u1" 10 true Hev).
Defined.

(** The ledger holds 500 points, their read fails, and the profile comes
    back without error, showing 0 points. *)
Lemma C10_witness :
  ledger worldReadFail "u1" = Some (Some 500)
  ∧ Supabase.outcome 0 worldReadFail = None
  ∧ is_Some (t_users (w_db worldReadFail) !! "u1")
  ∧ is_Some (Supabase.outcome 2 worldReadFail)
  ∧ (eval (apiService.auth.getFullUserProfile "u1") worldReadFail).2 = None
  ∧ ∃ u, (eval (apiService.auth.getFullUserProfile "u1") worldReadFail).1.1 = Some u
         ∧ u_id u = "u1" ∧ u_points u = 0.
Proof.
  assert (is_Some (t_users (w_db worldReadFail) !! "u1")) as Hrow
    by (vm_compute; eexists; reflexivity).
  assert (is_Some (Supabase.outcome 2 worldReadFail)) as Hfail
    by (vm_compute; eexists; reflexivity).
  split; [vm_compute; reflexivity|]. split; [reflexivity|].
  split; [exact Hrow|]. split; [exact Hfail|].
  destruct (proj2 (proj2 (proj2 (proj2 (C10_getPoints_hides_failed_read "u1" worldReadFail))))
              eq_refl Hrow) as [Herror Hzero].
  split; [exact Herror|exact (Hzero Hfail)].
Defined.
